(** * ask-astro bulk load DAG: a shallow embedding of
      [airflow/dags/ingestion/ask-astro-load.py]

    The DAG [ask_astro_load_bulk] is a chain of Airflow tasks: two branch
    tasks ([recreate_schema_branch], [check_object_count]), seven extract
    tasks, [split_data] and [import_data].  Each task is embedded as a
    function; Python exceptions are the [Raise] results of an error monad,
    pandas frames are column names plus rows of cells, and the calls into
    third-party packages (weaviate, langchain, html2text, the datetime
    rendering) are variables of the sections that use them. *)

From Stdlib Require Import ZArith String Ascii List Sorting.Sorted Permutation.
From stdpp Require Import base option list strings gmap sorting pretty.

Open Scope string_scope.

(** ** Python exceptions as an error monad *)

Inductive pyerr :=
| KeyError | IndexError | TypeError | AttributeError
| UnboundLocalError | ValueError | FileNotFoundError.

Inductive result (A : Type) :=
| Ok (a : A)
| Raise (e : pyerr).
Arguments Ok {A} a.
Arguments Raise {A} e.

#[global] Instance result_ret : MRet result := fun A a => Ok a.
#[global] Instance result_bind : MBind result := fun A B f r =>
  match r with Ok a => f a | Raise e => Raise e end.
#[global] Instance result_fmap : FMap result := fun A B f r =>
  match r with Ok a => Ok (f a) | Raise e => Raise e end.

Definition from_option {A} (e : pyerr) (o : option A) : result A :=
  match o with Some a => Ok a | None => Raise e end.

(** [mapM] for [result]: the first failing element decides, as in a Python
    loop or a pandas [apply] that stops at the first exception. *)
Fixpoint traverse {A B} (f : A -> result B) (l : list A) : result (list B) :=
  match l with
  | [] => Ok []
  | x :: l' => y ← f x; ys ← traverse f l'; Ok (y :: ys)
  end.

(** ** Python values *)

#[warnings="-register-all"]
Inductive pyval :=
| VNone
| VBool (b : bool)
| VInt (z : Z)
| VStr (s : string)
| VList (l : list pyval)
| VDict (m : gmap string pyval).

(** [bool(v)] *)
Definition truthy (v : pyval) : bool :=
  match v with
  | VNone => false
  | VBool b => b
  | VInt z => negb (z =? 0)%Z
  | VStr s => negb (String.eqb s "")
  | VList l => match l with [] => false | _ => true end
  | VDict m => negb (Nat.eqb (size m) 0)
  end.

(** [v[k]] for a string subscript *)
Definition getitem (v : pyval) (k : string) : result pyval :=
  match v with
  | VDict m => from_option KeyError (m !! k)
  | _ => Raise TypeError
  end.

(** [v[0]] *)
Definition getitem0 (v : pyval) : result pyval :=
  match v with
  | VList l => from_option IndexError (head l)
  | VStr s => match s with
              | EmptyString => Raise IndexError
              | String c _ => Ok (VStr (String c EmptyString))
              end
  | VDict _ => Raise KeyError
  | _ => Raise TypeError
  end.

(** [needle in hay] on strings *)
Fixpoint contains (needle hay : string) : bool :=
  String.prefix needle hay ||
  match hay with
  | EmptyString => false
  | String _ hay' => contains needle hay'
  end.

(** [s in v] for a string [s] *)
Definition py_in (s : string) (v : pyval) : result bool :=
  match v with
  | VStr h => Ok (contains s h)
  | VList l => Ok (existsb (fun x => match x with VStr t => String.eqb s t | _ => false end) l)
  | VDict m => Ok (bool_decide (is_Some (m !! s)))
  | _ => Raise TypeError
  end.

(** [v == n] for an int literal [n]; a bool is an int in Python *)
Definition py_eq_int (v : pyval) (n : Z) : bool :=
  match v with
  | VInt z => (z =? n)%Z
  | VBool b => ((if b then 1 else 0) =? n)%Z
  | _ => false
  end.

(** [v >= n] for an int [n]: anything that is not a number raises *)
Definition py_ge_int (v : pyval) (n : Z) : result bool :=
  match v with
  | VInt z => Ok (n <=? z)%Z
  | VBool b => Ok (n <=? (if b then 1 else 0))%Z
  | _ => Raise TypeError
  end.

(** ** The branch tasks *)

Module Branch.

(** An exception object as the handler reads it: the two attributes may be
    missing (a plain [Exception] has neither). *)
Record pyexn := { status_code : option pyval; message : option pyval }.

(** What the body of the [try] does: it binds [response] or raises. *)
Inductive outcome :=
| Returned (response : pyval)
| Raised (e : pyexn).

Definition weaviate_doc_count : gmap string Z := {[ "Docs" := 7307%Z ]}.

Definition extract_task_ids : list string :=
  [ "extract_github_markdown"; "extract_github_rst"; "extract_github_python";
    "extract_stack_overflow"; "extract_slack"; "extract_registry";
    "extract_github_issues" ].

(** [recreate_schema_branch]: [if x / elif not x / else]. *)
Definition recreate_schema_branch (schema_exists : pyval) : option (list string) :=
  if truthy schema_exists then Some ["check_object_count"]
  else if negb (truthy schema_exists) then Some ["create_schema"]
  else None.

(** The GraphQL text of the f-string. *)
Definition aggregate_query (class_name : string) : string :=
  "{Aggregate { " ++ class_name ++ " { meta { count } } } }".

(** [response['data']['Aggregate'][class_name][0]['meta']['count']] *)
Definition reported_count (response : pyval) (class_name : string) : result pyval :=
  d ← getitem response "data";
  a ← getitem d "Aggregate";
  c ← getitem a class_name;
  o ← getitem0 c;
  m ← getitem o "meta";
  getitem m "count".

(** The [except] clause.  The result is the binding of the local
    [response] after the handler: [Some VNone] when the guard holds,
    [None] (still unbound) when it does not. *)
Definition handler (e : pyexn) : result (option pyval) :=
  sc ← from_option AttributeError (status_code e);
  if py_eq_int sc 422 then
    msg ← from_option AttributeError (message e);
    hit ← py_in "no graphql provider present" msg;
    if (hit : bool) then Ok (Some VNone) else Ok None
  else Ok None.

(** [check_object_count].  [run] is [weaviate_hook.run], the hook
    construction and [get_conn] included: it answers the query or raises. *)
Definition check_object_count (run : string -> outcome)
    (weaviate_doc_count : gmap string Z) (class_name : string)
  : result (option (list string)) :=
  bound ← match run (aggregate_query class_name) with
          | Returned r => Ok (Some r)
          | Raised e => handler e
          end;
  response ← from_option UnboundLocalError bound;
  if truthy response then
    count ← reported_count response class_name;
    target ← from_option KeyError (weaviate_doc_count !! class_name);
    reached ← py_ge_int count target;
    if (reached : bool) then Ok None else Ok (Some extract_task_ids)
  else Ok (Some extract_task_ids).

End Branch.

(** ** pandas frames *)

Module Frame.

(** A cell of a frame.  [NaN] is a missing value; [Num] is a number (the
    float columns of the slack archive are kept as integer keys that keep
    the order and the equality of the floats); [Docs] is the list of
    langchain documents that [split_data] stores in [doc_chunks], each by
    its [page_content]; [Doc] is one of them after [explode]. *)
Inductive cell :=
| NaN
| Str (s : string)
| Num (z : Z)
| Doc (page_content : string)
| Docs (chunks : list string).

#[global] Instance cell_eq_dec : EqDecision cell.
Proof. solve_decision. Defined.

(** Column labels and rows; every row holds one cell per label. *)
Record DataFrame := { columns : list string; rows : list (list cell) }.

Definition wf (df : DataFrame) : Prop :=
  NoDup (columns df) /\ Forall (fun r => length r = length (columns df)) (rows df).

#[global] Instance wf_dec (df : DataFrame) : Decision (wf df).
Proof. unfold wf. apply _. Defined.

(** Keep the first occurrence of every element: the order in which
    [pd.concat] lists the union of the labels, and what
    [drop_duplicates] keeps. *)
Fixpoint keep_first `{EqDecision A} (l : list A) : list A :=
  match l with
  | [] => []
  | x :: l' => x :: filter (fun y => y <> x) (keep_first l')
  end.

Fixpoint col_index (c : string) (cols : list string) : option nat :=
  match cols with
  | [] => None
  | c' :: cols' => if decide (c = c') then Some 0 else S <$> col_index c cols'
  end.

(** The cell of row [r] under label [c]; a label the frame does not have
    reads as missing, as when [pd.concat] reindexes. *)
Definition cell_at (cols : list string) (r : list cell) (c : string) : cell :=
  match col_index c cols with
  | Some i => default NaN (r !! i)
  | None => NaN
  end.

(** [df[c]] *)
Definition column (c : string) (df : DataFrame) : result (list cell) :=
  if decide (c ∈ columns df)
  then Ok (map (fun r => cell_at (columns df) r c) (rows df))
  else Raise KeyError.

(** [df[c] = vals]: in place when the label exists, a new last column
    when it does not.  The tasks assign one value per row. *)
Definition set_column (c : string) (vals : list cell) (df : DataFrame) : DataFrame :=
  match col_index c (columns df) with
  | Some i => {| columns := columns df;
                 rows := zip_with (fun r v => <[i:=v]> r) (rows df) vals |}
  | None => {| columns := (columns df ++ [c])%list;
               rows := zip_with (fun r v => (r ++ [v])%list) (rows df) vals |}
  end.

(** [df.drop([c], axis=1)] *)
Definition drop (c : string) (df : DataFrame) : result DataFrame :=
  match col_index c (columns df) with
  | Some i => Ok {| columns := delete i (columns df);
                    rows := map (delete i) (rows df) |}
  | None => Raise KeyError
  end.

(** [df[[c1, ..., cn]]] *)
Definition select (cs : list string) (df : DataFrame) : result DataFrame :=
  idx ← traverse (fun c => from_option KeyError (col_index c (columns df))) cs;
  Ok {| columns := cs;
        rows := map (fun r => map (fun i => default NaN (r !! i)) idx) (rows df) |}.

(** [pd.concat(dfs, axis=0, ignore_index=True)] *)
Definition concat (dfs : list DataFrame) : result DataFrame :=
  match dfs with
  | [] => Raise ValueError
  | _ =>
    let cols := keep_first (mjoin (map columns dfs)) in
    Ok {| columns := cols;
          rows := mjoin (map (fun df =>
                    map (fun r => map (cell_at (columns df) r) cols) (rows df)) dfs) |}
  end.

(** [df[mask]] *)
Definition filter_rows (keep : list cell -> Prop) `{forall r, Decision (keep r)}
    (df : DataFrame) : DataFrame :=
  {| columns := columns df; rows := filter keep (rows df) |}.

(** [df.explode(c, ignore_index=True)]: one row per element of a list
    cell, a missing value for an empty list, other cells as they are. *)
Definition explode_row (i : nat) (r : list cell) : list (list cell) :=
  match r !! i with
  | Some (Docs []) => [ <[i:=NaN]> r ]
  | Some (Docs l) => map (fun s => <[i:=Doc s]> r) l
  | _ => [r]
  end.

Definition explode (c : string) (df : DataFrame) : result DataFrame :=
  match col_index c (columns df) with
  | Some i => Ok {| columns := columns df;
                    rows := mjoin (map (explode_row i) (rows df)) |}
  | None => Raise KeyError
  end.

(** [str.replace(old, new)] for a one-character [old] *)
Fixpoint replace_char (old : ascii) (new : string) (s : string) : string :=
  match s with
  | EmptyString => EmptyString
  | String a s' =>
    if Ascii.eqb a old then new ++ replace_char old new s'
    else String a (replace_char old new s')
  end.

(** [a in s] for a character, and a text made of [a] alone (or empty) *)
Fixpoint occurs (a : ascii) (s : string) : bool :=
  match s with
  | EmptyString => false
  | String b s' => Ascii.eqb b a || occurs a s'
  end.


(** [sep.join(l)] *)
Fixpoint join (sep : string) (l : list string) : string :=
  match l with
  | [] => ""
  | [x] => x
  | x :: l' => x ++ sep ++ join sep l'
  end.

End Frame.

(** ** The extract, split and import tasks *)

Module Tasks.
Import Frame.

(** What [generate_uuid5] is given: a string ([extract_slack]), the
    dict of a row ([import_data]) or the row itself, a pandas Series that
    carries its row label ([extract_stack_overflow],
    [extract_github_issues]). *)
Inductive identifier :=
| IdStr (s : string)
| IdDict (d : list (string * cell))
| IdSeries (name : nat) (d : list (string * cell)).

(** The third-party calls of the file. *)
Record thirdparty := {
  (** [weaviate.util.generate_uuid5] *)
  generate_uuid5 : identifier -> string;
  (** [RecursiveCharacterTextSplitter().split_documents([Document(page_content=x)])],
      each returned document by its [page_content] *)
  recursive_split_documents : cell -> result (list string);
  (** [MarkdownHeaderTextSplitter(headers_to_split_on).split_text]: imported
      by the file, called only in commented-out lines *)
  markdown_header_split_text : list (string * string) -> string -> list string;
  (** [html2text.html2text] *)
  html2text : string -> string;
  (** [str(datetime.fromtimestamp(x))] *)
  fromtimestamp : Z -> result string;
  (** [float(s)] on the text of a cell, [str(x)] on a float, and [str] on
      a cell that is not a string *)
  parse_float : string -> option Z;
  str_float : Z -> string;
  str_other : cell -> string
}.

(** The parquet files under [include/data]. *)
Definition filesystem := string -> option DataFrame.

Definition read_parquet (fs : filesystem) (path : string) : result DataFrame :=
  from_option FileNotFoundError (fs path).

(** The source dicts of the dynamic tasks; every entry a task reads is a
    string. *)
Definition source := gmap string string.

Definition markdown_docs_sources : list source :=
  [ {[ "doc_dir" := "learn"; "repo_base" := "astronomer/docs" ]};
    {[ "doc_dir" := "astro"; "repo_base" := "astronomer/docs" ]} ].
Definition rst_docs_sources : list source :=
  [ {[ "doc_dir" := "docs"; "repo_base" := "apache/airflow" ]} ].
Definition code_samples_sources : list source :=
  [ {[ "doc_dir" := "code-samples"; "repo_base" := "astronomer/docs" ]} ].
Definition issues_docs_sources : list source :=
  [ {[ "doc_dir" := "issues"; "repo_base" := "apache/airflow" ]} ].
Definition slack_channel_sources : list source :=
  [ {[ "channel_name" := "troubleshooting"; "channel_id" := "CCQ7EGB1P";
       "team_id" := "TCQ18L22Z"; "team_name" := "Airflow Slack Community";
       "slack_api_conn_id" := "TBD" ]} ].

(** The registry source by its string entries; its [headers] entry, an
    empty dict, is read by no task. *)
Definition http_json_sources : list source :=
  [ {[ "name" := "registry_cell_types";
       "base_url" := "https://api.astronomer.io/registryV2/v1alpha1/organizations/public/modules?limit=1000";
       "count_field" := "totalCount" ]} ].

Definition stackoverflow_cutoff_date : string := "2021-09-01".
Definition stackoverflow_tags : list string := ["airflow"].

Definition lookup_source (s : source) (k : string) : result string :=
  from_option KeyError (s !! k).

(** [f"include/data/{source['repo_base']}/{source['doc_dir']}.parquet"] *)
Definition snapshot_path (s : source) : result string :=
  repo_base ← lookup_source s "repo_base";
  doc_dir ← lookup_source s "doc_dir";
  Ok ("include/data/" ++ repo_base ++ "/" ++ doc_dir ++ ".parquet").

Definition stackoverflow_path : string := "include/data/stackoverflow_base.parquet".
Definition slack_path : string := "include/data/slack/troubleshooting.parquet".
Definition registry_path : string := "include/data/registry.parquet".

(** The record shape of the docstrings: the four fields, and [header] for
    the sources that have one. *)
Definition record_fields : list string := ["docSource"; "sha"; "docLink"; "content"].

Definition record_shape (df : DataFrame) : Prop :=
  record_fields ⊆ columns df /\ columns df ⊆ "header" :: record_fields.

#[global] Instance record_shape_dec (df : DataFrame) : Decision (record_shape df).
Proof. unfold record_shape. apply _. Defined.

(** The commented-out configuration of lines 601 to 605. *)
Definition headers_to_split_on : list (string * string) :=
  [("#", "Header 1"); ("##", "Header 2")].

(** Splitting at markdown header boundaries, in the words of the
    specification: the text is cut before every line that starts a header. *)
Fixpoint split_lines (s : string) : list string :=
  match s with
  | EmptyString => [EmptyString]
  | String a s' =>
    if Ascii.eqb a "010" then EmptyString :: split_lines s'
    else match split_lines s' with
         | l :: ls => String a l :: ls
         | [] => [String a EmptyString]
         end
  end.

Definition is_header (line : string) : bool := String.prefix "#" line.

Fixpoint sections (cur : list string) (ls : list string) : list (list string) :=
  match ls with
  | [] => match cur with [] => [] | _ => [cur] end
  | l :: ls' =>
    if is_header l
    then match cur with [] => sections [l] ls' | _ => cur :: sections [l] ls' end
    else sections (cur ++ [l])%list ls'
  end.

Definition header_sections (s : string) : list string :=
  map (join (String "010" EmptyString)) (sections [] (split_lines s)).

(** A Slack message after the two [astype(float)], [fillna] and the reply
    template. *)
Record message := { ts : Z; thread_ts : Z; content : string }.

Definition ts_le (a b : message) : Prop := (ts a <= ts b)%Z.
#[global] Instance ts_le_dec : RelDecision ts_le.
Proof. intros a b. unfold ts_le. apply _. Defined.

Section WithLibrary.
Context (lib : thirdparty).

(** [df.apply(generate_uuid5, axis=1)]: the identifier is the row. *)
Definition row_uuids (df : DataFrame) : list cell :=
  imap (fun i r => Str (generate_uuid5 lib (IdSeries i (zip (columns df) r)))) (rows df).

Definition extract_github_markdown (fs : filesystem) (s : source) : result DataFrame :=
  path ← snapshot_path s;
  read_parquet fs path.

Definition extract_github_rst (fs : filesystem) (s : source) : result DataFrame :=
  path ← snapshot_path s;
  read_parquet fs path.

Definition extract_github_python (fs : filesystem) (s : source) : result DataFrame :=
  path ← snapshot_path s;
  read_parquet fs path.

Definition extract_stack_overflow (fs : filesystem) (tag : string)
    (stackoverflow_cutoff_date : string) : result DataFrame :=
  df ← read_parquet fs stackoverflow_path;
  Ok (set_column "sha" (row_uuids df) df).

Definition extract_github_issues (fs : filesystem) (s : source) : result DataFrame :=
  path ← snapshot_path s;
  df ← read_parquet fs path;
  Ok (set_column "sha" (row_uuids df) df).

Definition extract_registry (fs : filesystem) (s : source) : result DataFrame :=
  read_parquet fs registry_path.

(** *** [extract_slack] *)

(** [astype(float)] on one cell *)
Definition astype_float (c : cell) : result cell :=
  match c with
  | NaN => Ok NaN
  | Num z => Ok (Num z)
  | Str s => match parse_float lib s with
             | Some z => Ok (Num z)
             | None => Raise ValueError
             end
  | _ => Raise TypeError
  end.

(** [fillna(value=df.ts, inplace=True)] on one cell of [thread_ts]; the
    column of the frame is filled, as pandas does without copy-on-write. *)
Definition fillna (thread_ts ts : cell) : cell :=
  match thread_ts with NaN => ts | _ => thread_ts end.

(** [str.format] of a cell *)
Definition format_cell (c : cell) : string :=
  match c with Str s => s | _ => str_other lib c end.

(** [reply_md_format.format(ts=datetime.fromtimestamp(x.ts), user=x.user, text=x.text)];
    a missing [ts] makes [fromtimestamp] raise. *)
Definition reply_md (user text ts thread : cell) : result message :=
  match ts with
  | Num t =>
    stamp ← fromtimestamp lib t;
    Ok {| ts := t;
          thread_ts := match thread with Num k => k | _ => t end;
          content := "### [" ++ stamp ++ "] <@" ++ format_cell user ++ ">"
                     ++ String "010" (String "010" (format_cell text)) |}
  | _ => Raise ValueError
  end.

(** One row of the archive against its message: lines 444 to 451. *)
Definition message_of_row (r : list cell) (m : message) : Prop :=
  astype_float (default NaN (r !! 2)) = Ok (Num (ts m))
  /\ (exists th, astype_float (default NaN (r !! 3)) = Ok th
        /\ (th = NaN -> thread_ts m = ts m)
        /\ (forall k, th = Num k -> thread_ts m = k))
  /\ (exists stamp, fromtimestamp lib (ts m) = Ok stamp
        /\ content m = "### [" ++ stamp ++ "] <@" ++ format_cell (default NaN (r !! 0))
                       ++ ">" ++ String "010" (String "010"
                                   (format_cell (default NaN (r !! 1))))).

(** Lines 440 to 451 on the selected, de-duplicated rows
    ([user, text, ts, thread_ts, client_msg_id, type]).  On a frame
    without rows the row-wise [apply] returns a frame, not a column, and
    the assignment to [content] raises. *)
Definition slack_messages (rs : list (list cell)) : result (list message) :=
  threads ← traverse (fun r => astype_float (default NaN (r !! 3))) rs;
  stamps ← traverse (fun r => astype_float (default NaN (r !! 2))) rs;
  let filled := zip_with fillna threads stamps in
  match rs with
  | [] => Raise ValueError
  | _ =>
    traverse (fun '(r, (t, k)) =>
                reply_md (default NaN (r !! 0)) (default NaN (r !! 1)) t k)
             (zip rs (zip stamps filled))
  end.

(** [sort_values('ts')]: ascending.  pandas' default sort does not promise
    an order among equal keys; the merge sort here fixes one. *)
Definition sort_values_ts (ms : list message) : list message :=
  merge_sort ts_le ms.

(** [groupby('thread_ts').agg({'content': '\n'.join}).reset_index()]: the
    group keys ascending, each with its rows in frame order. *)
Definition groupby_thread_ts (ms : list message) : list (Z * string) :=
  map (fun k => (k, join (String "010" "")
                      (map content (filter (fun m => thread_ts m = k) ms))))
      (merge_sort Z.le (keep_first (map thread_ts ms))).


(** Lines 455 to 466 on one group. *)
Definition thread_record (s : source) (g : Z * string) : result (list cell) :=
  team_name ← lookup_source s "team_name";
  channel_name ← lookup_source s "channel_name";
  let body := "# slack: " ++ team_name ++ String "010" (String "010" ("## " ++ channel_name))
              ++ String "010" (String "010" (snd g)) in
  team_id ← lookup_source s "team_id";
  channel_id ← lookup_source s "channel_id";
  let link := "https://app.slack.com/client/" ++ team_id ++ "/" ++ channel_id ++ "/p"
              ++ replace_char "." "" (str_float lib (fst g)) in
  Ok [Str channel_name; Str (generate_uuid5 lib (IdStr body)); Str body; Str link].

Definition extract_slack (fs : filesystem) (s : source) : result DataFrame :=
  df ← read_parquet fs slack_path;
  df ← select ["user"; "text"; "ts"; "thread_ts"; "client_msg_id"; "type"] df;
  ms ← slack_messages (keep_first (rows df));
  let groups := groupby_thread_ts (sort_values_ts ms) in
  recs ← traverse (thread_record s) groups;
  channel_name ← lookup_source s "channel_name";
  Ok {| columns := ["docSource"; "sha"; "content"; "docLink"]; rows := recs |}.

(** *** [split_data] *)

(** [len(x)] on a cell of [doc_chunks] *)
Definition chunk_count (c : cell) : nat :=
  match c with Docs l => length l | _ => 0 end.

(** [html2text.html2text(x.page_content).replace('\n',' ')]: a cell that
    is not a document has no [page_content]. *)
Definition chunk_text (c : cell) : result cell :=
  match c with
  | Doc s => Ok (Str (replace_char "010" " " (html2text lib s)))
  | _ => Raise AttributeError
  end.

(** [x.replace('\\','')] *)
Definition strip_backslashes (c : cell) : result cell :=
  match c with
  | Str s => Ok (Str (replace_char "\" "" s))
  | _ => Raise AttributeError
  end.

(** Lines 584 to 599: one frame per source kind, then one frame. *)
Definition concat_sources (md_dfs rst_dfs slack_dfs stackoverflow_dfs code_dfs
                            issues_dfs reg_dfs : list DataFrame) : result DataFrame :=
  md_df ← concat md_dfs;
  rst_df ← concat rst_dfs;
  slack_df ← concat slack_dfs;
  stackoverflow_df ← concat stackoverflow_dfs;
  code_df ← concat code_dfs;
  issues_df ← concat issues_dfs;
  reg_df ← concat reg_dfs;
  concat [md_df; rst_df; slack_df; reg_df; code_df; stackoverflow_df; issues_df].

(** What becomes of one chunk: lines 614 and 615 together. *)
Definition rendered (chunk : string) : string :=
  replace_char "\" "" (replace_char "010" " " (html2text lib chunk)).

Definition split_data (md_dfs rst_dfs slack_dfs stackoverflow_dfs code_dfs
                        issues_dfs reg_dfs : list DataFrame) : result DataFrame :=
  df ← concat_sources md_dfs rst_dfs slack_dfs stackoverflow_dfs code_dfs issues_dfs reg_dfs;
  docs ← column "content" df;
  chunks ← traverse (recursive_split_documents lib) docs;
  let df := set_column "doc_chunks" (map Docs chunks) df in
  let df := filter_rows (fun r => 0 < chunk_count (cell_at (columns df) r "doc_chunks")) df in
  df ← explode "doc_chunks" df;
  exploded ← column "doc_chunks" df;
  texts ← traverse chunk_text exploded;
  texts ← traverse strip_backslashes texts;
  let df := set_column "content" texts df in
  df ← drop "doc_chunks" df;
  drop "header" df.

(** *** [import_data] *)

Record import_args := {
  data : DataFrame;
  class_name : string;
  uuid_column : string;
  batch_size : Z;
  error_threshold : Z
}.

(** [x.to_dict()] *)
Definition to_dict (cols : list string) (r : list cell) : list (string * cell) :=
  zip cols r.

Definition import_data (md_docs : DataFrame) (class_name : string) : result import_args :=
  df ← concat [md_docs];
  let uuids := map (fun r => Str (generate_uuid5 lib (IdDict (to_dict (columns df) r)))) (rows df) in
  Ok {| data := set_column "uuid" uuids df;
        class_name := class_name;
        uuid_column := "uuid";
        batch_size := 1000;
        error_threshold := 12 |}.


(** The uuid that [import_data] hands over for row [i]. *)
Definition uuid_of (a : import_args) (i : nat) : option cell :=
  match column (uuid_column a) (data a) with
  | Ok l => l !! i
  | Raise _ => None
  end.


(** Lines 647 to 663: the data path of the DAG, from the mapped extract
    tasks to the arguments of the import.  A mapped task runs once per
    source; the runs are taken here in the order of the source lists. *)
Definition unimported_md (fs : filesystem) : result import_args :=
  md_docs ← traverse (extract_github_markdown fs) markdown_docs_sources;
  rst_docs ← traverse (extract_github_rst fs) rst_docs_sources;
  issues_md ← traverse (extract_github_issues fs) issues_docs_sources;
  code_samples ← traverse (extract_github_python fs) code_samples_sources;
  stackoverflow_md ← traverse (fun tag => extract_stack_overflow fs tag stackoverflow_cutoff_date)
                              stackoverflow_tags;
  slack_md ← traverse (extract_slack fs) slack_channel_sources;
  registry_md ← traverse (extract_registry fs) http_json_sources;
  split_md_docs ← split_data md_docs rst_docs slack_md stackoverflow_md code_samples
                             issues_md registry_md;
  import_data split_md_docs "Docs".

End WithLibrary.

End Tasks.

(** ** The task graph *)

Module Dag.

(** The tasks behind the names of lines 666 and 667, by task id. *)
Definition mapped_extracts : list string :=
  [ "extract_github_markdown"; "extract_github_rst"; "extract_github_python";
    "extract_stack_overflow"; "extract_github_issues"; "extract_slack";
    "extract_registry" ].

(** Each task with the tasks set directly downstream of it: the [>>] of
    lines 665 to 667, and the arguments of lines 655 to 663. *)
Definition dependencies : list (string * list string) :=
  [ ("check_schema", ["recreate_schema_branch"]);
    ("recreate_schema_branch", ["create_schema"; "check_object_count"]);
    ("check_object_count", mapped_extracts);
    ("create_schema", mapped_extracts);
    ("extract_github_markdown", ["split_data"]);
    ("extract_github_rst", ["split_data"]);
    ("extract_stack_overflow", ["split_data"]);
    ("extract_github_python", ["split_data"]);
    ("extract_slack", ["split_data"]);
    ("extract_github_issues", ["split_data"]);
    ("extract_registry", ["split_data"]);
    ("split_data", ["import_data"]) ].

Definition downstream (task : string) : list string :=
  mjoin (map snd (filter (fun d => fst d = task) dependencies)).

End Dag.

(** ** Sample data: a library instance and small inputs to run the tasks on *)

Module Sample.
Import Frame Tasks Branch.

(** The answer of the index to the count query, [n] objects in [Docs]. *)
Definition count_response (n : Z) : pyval :=
  VDict {[ "data" := VDict {[ "Aggregate" :=
    VDict {[ "Docs" := VList [VDict {[ "meta" := VDict {[ "count" := VInt n ]} ]}] ]} ]} ]}.

(** The error of a Weaviate instance without GraphQL provider, and an
    unrelated server error. *)
Definition no_schema_error : pyexn :=
  {| status_code := Some (VInt 422);
     message := Some (VStr "Query was not successful! no graphql provider present, no schema") |}.
Definition server_error : pyexn :=
  {| status_code := Some (VInt 500); message := Some (VStr "Internal Server Error") |}.

(** A library instance.  The splitter hands a document below its chunk
    size back in one chunk, and no chunk for an empty one; the renderer
    ends its output with a blank line; numbers print in decimal. *)
Definition render_cell (c : cell) : string :=
  match c with Str s => s | Num z => pretty z | _ => "nan" end.

Definition render_fields (d : list (string * cell)) : string :=
  join ", " (map (fun kv => fst kv ++ ": " ++ render_cell (snd kv)) d).

Definition sample_uuid (i : identifier) : string :=
  match i with
  | IdStr s => "uuid5(" ++ s ++ ")"
  | IdDict d => "uuid5({" ++ render_fields d ++ "})"
  | IdSeries n d => "uuid5(" ++ render_fields d ++ ", Name: " ++ pretty n ++ ")"
  end.

Definition whole_document (c : cell) : result (list string) :=
  match c with
  | Str s => Ok (if decide (s = EmptyString) then [] else [s])
  | _ => Raise TypeError
  end.

Definition library : thirdparty :=
  {| generate_uuid5 := sample_uuid;
     recursive_split_documents := whole_document;
     markdown_header_split_text := fun _ => header_sections;
     html2text := fun s => s ++ String "010" (String "010" EmptyString);
     fromtimestamp := fun t => Ok (pretty t);
     parse_float := fun _ => None;
     str_float := fun t => pretty t ++ ".0";
     str_other := render_cell |}.


(** A markdown document with two header sections, and frames of the two
    record shapes: without and with [header]. *)
Definition two_sections : string :=
  "# Install" ++ String "010" "pip install" ++ String "010" "# Use" ++ String "010" "run\it".

Definition docs_frame : DataFrame :=
  {| columns := ["docSource"; "sha"; "docLink"; "content"];
     rows := [ [Str "learn"; Str "3f2a"; Str "https://github.com/astronomer/docs/learn/a.md";
                Str two_sections];
               [Str "learn"; Str "9c1b"; Str "https://github.com/astronomer/docs/learn/b.md";
                Str EmptyString] ] |}.

Definition reordered_frame : DataFrame :=
  {| columns := ["docSource"; "sha"; "docLink"; "content"];
     rows := [ [Str "learn"; Str "9c1b"; Str "https://github.com/astronomer/docs/learn/b.md";
                Str EmptyString];
               [Str "astro"; Str "0b7e"; Str "https://github.com/astronomer/docs/astro/x.md";
                Str "Deploy"] ] |}.

Definition issues_frame : DataFrame :=
  {| columns := ["docLink"; "sha"; "content"; "docSource"; "header"];
     rows := [ [Str "https://github.com/apache/airflow/issues/1"; Str "77e0";
                Str "## ISSUE TITLE: scheduler"; Str "apache/airflow issues";
                Str "apache/airflow issue"] ] |}.


(** A Slack archive: a thread of three messages (one stored twice, one
    older than its root) and a message on its own. *)
Definition slack_snapshot : DataFrame :=
  {| columns := ["client_msg_id"; "type"; "text"; "user"; "ts"; "thread_ts"];
     rows := [ [Str "m1"; Str "message"; Str "hello"; Str "U1"; Num 30; NaN];
               [Str "m2"; Str "message"; Str "reply"; Str "U2"; Num 40; Num 30];
               [Str "m3"; Str "message"; Str "other"; Str "U3"; Num 10; NaN];
               [Str "m2"; Str "message"; Str "reply"; Str "U2"; Num 40; Num 30];
               [Str "m4"; Str "message"; Str "early"; Str "U2"; Num 20; Num 30] ] |}.

Definition slack_disk : filesystem :=
  fun path => if decide (path = slack_path) then Some slack_snapshot else None.

(** A disk with every snapshot the DAG reads; the stack overflow archive
    comes without [sha]. *)
Definition stackoverflow_frame : DataFrame :=
  {| columns := ["docSource"; "docLink"; "content"; "header"];
     rows := [ [Str "stackoverflow airflow"; Str "https://stackoverflow.com/questions/1";
                Str "TITLE: retries"; Str "question"] ] |}.

Definition disk : filesystem :=
  fun path =>
    if decide (path = "include/data/astronomer/docs/learn.parquet") then Some docs_frame
    else if decide (path = "include/data/astronomer/docs/astro.parquet") then Some reordered_frame
    else if decide (path = "include/data/apache/airflow/docs.parquet") then Some docs_frame
    else if decide (path = "include/data/astronomer/docs/code-samples.parquet")
         then Some reordered_frame
    else if decide (path = "include/data/apache/airflow/issues.parquet") then Some issues_frame
    else if decide (path = stackoverflow_path) then Some stackoverflow_frame
    else if decide (path = slack_path) then Some slack_snapshot
    else if decide (path = registry_path) then Some reordered_frame
    else None.

(** The archive with one more copy of its thread reply. *)
Definition slack_snapshot_again : DataFrame :=
  {| columns := columns slack_snapshot;
     rows := (rows slack_snapshot
              ++ [[Str "m2"; Str "message"; Str "reply"; Str "U2"; Num 40; Num 30]])%list |}.

Definition slack_disk_again : filesystem :=
  fun path => if decide (path = slack_path) then Some slack_snapshot_again else None.

(** An archive without the [thread_ts] column, and one with a message
    that has no [ts]. *)
Definition slack_disk_flat : filesystem :=
  fun path =>
    if decide (path = slack_path)
    then Some {| columns := ["client_msg_id"; "type"; "text"; "user"; "ts"];
                 rows := [ [Str "m1"; Str "message"; Str "hello"; Str "U1"; Num 30] ] |}
    else None.

Definition slack_snapshot_undated : DataFrame :=
  {| columns := ["client_msg_id"; "type"; "text"; "user"; "ts"; "thread_ts"];
     rows := [ [Str "m1"; Str "message"; Str "hello"; Str "U1"; Num 30; NaN];
               [Str "m5"; Str "message"; Str "joined"; Str "U4"; NaN; NaN] ] |}.

Definition slack_disk_undated : filesystem :=
  fun path => if decide (path = slack_path) then Some slack_snapshot_undated else None.

(** The answer of a GraphQL endpoint that reports an error. *)
Definition error_response : pyval :=
  VDict {[ "errors" := VList [VDict {[ "message" := VStr "Cannot query field" ]}] ]}.

Definition troubleshooting : source :=
  {[ "channel_name" := "troubleshooting"; "channel_id" := "CCQ7EGB1P";
     "team_id" := "TCQ18L22Z"; "team_name" := "Airflow Slack Community";
     "slack_api_conn_id" := "TBD" ]}.

End Sample.

(** * Properties *)

(** ** The error monad *)

Lemma bind_Ok {A B} (f : A -> result B) (r : result A) (b : B) :
  r ≫= f = Ok b -> exists a, r = Ok a /\ f a = Ok b.
Proof. destruct r as [a|e]; simpl; [eauto | discriminate]. Qed.

Lemma from_option_Ok {A} (e : pyerr) (o : option A) (a : A) :
  from_option e o = Ok a -> o = Some a.
Proof. destruct o; simpl; congruence. Qed.

(** Peel the binds of a successful computation, first to last. *)
Ltac bind_inv H :=
  repeat match type of H with
  | _ ≫= _ = Ok _ =>
      let a := fresh "a" in let Ha := fresh "E" in
      apply bind_Ok in H as (a & Ha & H); cbv beta zeta in H
  end.

Lemma traverse_Forall2 {A B} (f : A -> result B) (l : list A) (l' : list B) :
  traverse f l = Ok l' <-> Forall2 (fun x y => f x = Ok y) l l'.
Proof.
  revert l'. induction l as [|x l IH]; intros l'; simpl.
  - split; [intros [= <-]; constructor | intros H; by inversion H].
  - split.
    + intros H. bind_inv H. injection H as <-. constructor; [done | by apply IH].
    + intros H. inversion H as [|? y ? ys Hx Hl]; subst.
      rewrite Hx. simpl. apply IH in Hl. rewrite Hl. done.
Qed.

Lemma traverse_length {A B} (f : A -> result B) (l : list A) (l' : list B) :
  traverse f l = Ok l' -> length l' = length l.
Proof. intros H%traverse_Forall2. symmetry. by eapply Forall2_length. Qed.

(** ** The branch tasks *)

Section BranchFacts.
Import Branch.

(** A response that carries a count is a non-empty dict: the first
    conjunct of the [if] holds for it. *)
Lemma reported_count_truthy (response : pyval) (cls : string) (v : pyval) :
  reported_count response cls = Ok v -> truthy response = true.
Proof.
  unfold reported_count. intros H. bind_inv H.
  destruct response as [| | | | |m]; try discriminate. simpl in *.
  apply from_option_Ok in E.
  destruct (size m) eqn:Hsz; [|done].
  apply map_size_empty_inv in Hsz. subst m. by rewrite lookup_empty in E.
Qed.

(** C8.  On a boolean, [recreate_schema_branch] selects
    [check_object_count] when the schema exists and [create_schema] when
    it does not; [create_schema] is among the selected tasks exactly when
    the schema does not exist. *)
Theorem recreate_schema_branch_bool (schema_exists : bool) :
  recreate_schema_branch (VBool schema_exists)
    = Some (if schema_exists then ["check_object_count"] else ["create_schema"])
  /\ (forall ids, recreate_schema_branch (VBool schema_exists) = Some ids ->
        ("create_schema" ∈ ids <-> schema_exists = false)).
Proof.
  destruct schema_exists; (split; [reflexivity|]); intros ids [= <-];
    rewrite list_elem_of_singleton; split; congruence.
Qed.

(** C1.  When the index answers the count query with count [c] for the
    class and the target for the class is [t], [check_object_count]
    returns [None] exactly when [c >= t], and the seven extract task ids
    otherwise. *)
Theorem check_object_count_on_count (run : string -> outcome)
    (doc_count : gmap string Z) (cls : string) (response : pyval) (c t : Z) :
  run (aggregate_query cls) = Returned response ->
  reported_count response cls = Ok (VInt c) ->
  doc_count !! cls = Some t ->
  check_object_count run doc_count cls
    = Ok (if bool_decide (t <= c)%Z then None else Some extract_task_ids)
  /\ (check_object_count run doc_count cls = Ok None <-> (c >= t)%Z)
  /\ (check_object_count run doc_count cls = Ok (Some extract_task_ids) <-> (c < t)%Z).
Proof.
  intros Hrun Hcount Htarget.
  assert (check_object_count run doc_count cls
          = Ok (if bool_decide (t <= c)%Z then None else Some extract_task_ids)) as Heq.
  { unfold check_object_count. rewrite Hrun. simpl.
    rewrite (reported_count_truthy _ _ _ Hcount), Hcount. simpl.
    rewrite Htarget. simpl.
    destruct (Z.leb_spec t c); [rewrite bool_decide_eq_true_2 | rewrite bool_decide_eq_false_2];
      (done || lia). }
  rewrite Heq. split; [done|].
  case_bool_decide; (split; split; intros; first [done | lia | discriminate]).
Qed.

Lemma check_object_count_on_count_witness :
  (fun _ : string => Returned (Sample.count_response 7307)) (aggregate_query "Docs")
    = Returned (Sample.count_response 7307)
  /\ reported_count (Sample.count_response 7307) "Docs" = Ok (VInt 7307)
  /\ weaviate_doc_count !! "Docs" = Some 7307%Z
  /\ check_object_count (fun _ => Returned (Sample.count_response 7307)) weaviate_doc_count "Docs"
       = Ok None
  /\ (check_object_count (fun _ => Returned (Sample.count_response 7307)) weaviate_doc_count "Docs"
       = Ok None <-> (7307 >= 7307)%Z).
Proof.
  split; [reflexivity|]. split; [vm_compute; reflexivity|]. split; [vm_compute; reflexivity|].
  destruct (check_object_count_on_count (fun _ => Returned (Sample.count_response 7307))
              weaviate_doc_count "Docs" (Sample.count_response 7307) 7307 7307)
    as (Heq & Hnone & _); [reflexivity | vm_compute; reflexivity | vm_compute; reflexivity |].
  split; [exact Heq | exact Hnone].
Defined.

(** C3, as stated, fails: an exception that is not the 422 of a missing
    GraphQL provider leaves [response] unbound, and the task fails on the
    next line instead of returning the extract task ids. *)
Lemma check_object_count_server_error :
  check_object_count (fun _ => Raised Sample.server_error) weaviate_doc_count "Docs"
    = Raise UnboundLocalError.
Proof. vm_compute. reflexivity. Qed.

(** C3, amended.  An exception of the count query whose [status_code] is
    422 and whose [message] contains "no graphql provider present" is
    taken as "index not yet created": the task returns the seven extract
    task ids. *)
Theorem check_object_count_no_provider (run : string -> outcome)
    (doc_count : gmap string Z) (cls : string) (e : pyexn) (msg : string) :
  run (aggregate_query cls) = Raised e ->
  status_code e = Some (VInt 422) ->
  message e = Some (VStr msg) ->
  contains "no graphql provider present" msg = true ->
  check_object_count run doc_count cls = Ok (Some extract_task_ids).
Proof.
  intros Hrun Hcode Hmsg Hin. unfold check_object_count, handler.
  rewrite Hrun, Hcode. simpl. rewrite Hmsg. simpl. rewrite Hin. reflexivity.
Qed.

Lemma check_object_count_no_provider_witness :
  status_code Sample.no_schema_error = Some (VInt 422)
  /\ contains "no graphql provider present"
       "Query was not successful! no graphql provider present, no schema" = true
  /\ check_object_count (fun _ => Raised Sample.no_schema_error) weaviate_doc_count "Docs"
       = Ok (Some extract_task_ids).
Proof.
  split; [reflexivity|]. split; [vm_compute; reflexivity|].
  apply (check_object_count_no_provider (fun _ => Raised Sample.no_schema_error)
           weaviate_doc_count "Docs" Sample.no_schema_error
           "Query was not successful! no graphql provider present, no schema");
    vm_compute; reflexivity.
Defined.

End BranchFacts.

(** ** Frames *)

Section FrameFacts.
Import Frame.

Lemma col_index_Some (c : string) (cols : list string) (i : nat) :
  col_index c cols = Some i -> cols !! i = Some c.
Proof.
  revert i. induction cols as [|c' cols IH]; intros i; simpl; [done|].
  case_decide as Hc; [by intros [= <-]; subst|].
  destruct (col_index c cols) as [j|]; simpl; [|done].
  intros [= <-]. by apply IH.
Qed.

Lemma col_index_None (c : string) (cols : list string) :
  col_index c cols = None <-> c ∉ cols.
Proof.
  induction cols as [|c' cols IH]; simpl.
  - split; [intros _; apply not_elem_of_nil | done].
  - rewrite not_elem_of_cons. case_decide as Hc.
    + split; [done | intros [? _]; done].
    + destruct (col_index c cols); simpl; split; try done.
      * intros [_ Hn]. by apply IH in Hn.
      * intros _. split; [done | by apply IH].
Qed.

Lemma col_index_elem_of (c : string) (cols : list string) :
  c ∈ cols -> exists i, col_index c cols = Some i.
Proof.
  intros Hin. destruct (col_index c cols) as [i|] eqn:E; [eauto|].
  by apply col_index_None in E.
Qed.

Lemma col_index_Some_elem_of (c : string) (cols : list string) (i : nat) :
  col_index c cols = Some i -> c ∈ cols.
Proof. intros H%col_index_Some. by eapply list_elem_of_lookup_2. Qed.

Lemma col_index_last (c : string) (cols : list string) :
  c ∉ cols -> col_index c (cols ++ [c]) = Some (length cols).
Proof.
  induction cols as [|c' cols IH]; simpl; intros Hn.
  - by rewrite decide_True.
  - apply not_elem_of_cons in Hn as [Hne Hn].
    rewrite decide_False by done. by rewrite IH.
Qed.

Lemma cell_at_nil (cols : list string) (c : string) : cell_at cols [] c = NaN.
Proof. unfold cell_at. by destruct (col_index c cols). Qed.

Lemma cell_at_cons_eq (c : string) (cols : list string) (x : cell) (r : list cell) :
  cell_at (c :: cols) (x :: r) c = x.
Proof. unfold cell_at. simpl. by rewrite decide_True. Qed.

Lemma cell_at_cons_ne (c c' : string) (cols : list string) (x : cell) (r : list cell) :
  c <> c' -> cell_at (c' :: cols) (x :: r) c = cell_at cols r c.
Proof.
  intros Hne. unfold cell_at. simpl. rewrite decide_False by done.
  by destruct (col_index c cols).
Qed.

(** Dropping position [j] from the labels and from a row moves no other
    cell to another label. *)
Lemma cell_at_delete (c : string) (cols : list string) (r : list cell) (j : nat) :
  cols !! j <> Some c ->
  cell_at (delete j cols) (delete j r) c = cell_at cols r c.
Proof.
  revert r j. induction cols as [|c' cols IH]; intros r j Hj.
  - by destruct j.
  - destruct r as [|x r].
    { destruct j; simpl; by rewrite !cell_at_nil. }
    destruct j as [|j]; simpl in *.
    + rewrite cell_at_cons_ne; [done | congruence].
    + destruct (decide (c = c')) as [->|Hne].
      * by rewrite !cell_at_cons_eq.
      * rewrite !cell_at_cons_ne by done. by apply IH.
Qed.

Lemma elem_of_delete_col (c x : string) (cols : list string) (j : nat) :
  NoDup cols -> cols !! j = Some c ->
  x ∈ delete j cols <-> x ∈ cols /\ x <> c.
Proof.
  revert j. induction cols as [|c' cols IH]; intros j Hnd Hj; [done|].
  apply NoDup_cons in Hnd as [Hc' Hnd].
  destruct j as [|j]; simpl in *.
  - injection Hj as ->. rewrite elem_of_cons. split.
    + intros Hx. split; [by right | by intros ->].
    + by intros [[->|Hx] Hne].
  - rewrite !elem_of_cons, (IH j) by done. split.
    + intros [->|[Hx Hne]]; [|by auto].
      split; [by left|]. intros ->. apply Hc'. by eapply list_elem_of_lookup_2.
    + intros [[->|Hx] Hne]; auto.
Qed.

(** Writing a cell under its label and reading it back. *)
Lemma cell_at_insert_eq (c : string) (cols : list string) (r : list cell) (i : nat) (v : cell) :
  col_index c cols = Some i -> i < length r -> cell_at cols (<[i:=v]> r) c = v.
Proof. intros Hi Hlt. unfold cell_at. rewrite Hi. by rewrite list_lookup_insert_eq. Qed.

Lemma cell_at_snoc_eq (c : string) (cols : list string) (r : list cell) (v : cell) :
  c ∉ cols -> length r = length cols -> cell_at (cols ++ [c]) (r ++ [v]) c = v.
Proof.
  intros Hn Hlen. unfold cell_at. rewrite col_index_last by done.
  rewrite lookup_app_r by lia. by rewrite Hlen, Nat.sub_diag.
Qed.

(** *** Well-formed frames stay well-formed *)

Lemma keep_first_elem_of `{EqDecision A} (x : A) (l : list A) :
  x ∈ keep_first l <-> x ∈ l.
Proof.
  induction l as [|y l IH]; simpl; [done|].
  rewrite !elem_of_cons, list_elem_of_filter, IH.
  destruct (decide (x = y)); tauto.
Qed.

Lemma keep_first_NoDup `{EqDecision A} (l : list A) : NoDup (keep_first l).
Proof.
  induction l as [|y l IH]; simpl; [constructor|].
  apply NoDup_cons. split; [|by apply NoDup_filter].
  rewrite list_elem_of_filter. intros [Hy _]. by apply Hy.
Qed.

Lemma keep_first_id `{EqDecision A} (l : list A) : NoDup l -> keep_first l = l.
Proof.
  induction 1 as [|y l Hy Hnd IH]; simpl; [done|]. rewrite IH. f_equal.
  clear IH Hnd. induction l as [|z l IH]; [done|].
  apply not_elem_of_cons in Hy as [Hne Hy].
  rewrite filter_cons_True by congruence. f_equal. by apply IH.
Qed.

Lemma concat_Ok (dfs : list DataFrame) (df : DataFrame) :
  concat dfs = Ok df ->
  dfs <> [] /\
  df = {| columns := keep_first (mjoin (map columns dfs));
          rows := mjoin (map (fun f =>
                    map (fun r => map (cell_at (columns f) r)
                                      (keep_first (mjoin (map columns dfs)))) (rows f)) dfs) |}.
Proof. destruct dfs; [done|]. intros H. injection H as <-. done. Qed.

Lemma concat_columns (dfs : list DataFrame) (df : DataFrame) :
  concat dfs = Ok df -> columns df = keep_first (mjoin (map columns dfs)).
Proof. by intros [_ ->]%concat_Ok. Qed.

Lemma concat_elem_of_columns (dfs : list DataFrame) (df : DataFrame) (c : string) :
  concat dfs = Ok df -> c ∈ columns df <-> exists f, f ∈ dfs /\ c ∈ columns f.
Proof.
  intros ->%concat_columns. rewrite keep_first_elem_of, list_elem_of_join. split.
  - intros (cs & Hc & (f & -> & Hf)%list_elem_of_fmap). eauto.
  - intros (f & Hf & Hc). exists (columns f). split; [done|].
    apply list_elem_of_fmap. eauto.
Qed.

Lemma concat_wf (dfs : list DataFrame) (df : DataFrame) : concat dfs = Ok df -> wf df.
Proof.
  intros [_ ->]%concat_Ok. split; cbn [columns rows].
  - apply keep_first_NoDup.
  - apply Forall_forall. intros r (rs & Hr & (g & -> & Hg)%list_elem_of_fmap)%list_elem_of_join.
    apply list_elem_of_fmap in Hr as (r0 & -> & _). by rewrite length_map.
Qed.

Lemma realign_id (cols : list string) (r : list cell) :
  NoDup cols -> length r = length cols -> map (cell_at cols r) cols = r.
Proof.
  intros Hnd. revert r. induction Hnd as [|c cols Hc Hnd IH]; intros r Hlen.
  - by destruct r.
  - destruct r as [|x r]; [done|]. simpl in *. rewrite cell_at_cons_eq. f_equal.
    rewrite <- (IH r) at 2 by lia. apply map_ext_in. intros c' Hc'.
    apply cell_at_cons_ne. intros ->. by apply Hc, list_elem_of_In.
Qed.

(** [pd.concat([df])] is [df]. *)
Lemma concat_single (df : DataFrame) : wf df -> concat [df] = Ok df.
Proof.
  intros [Hnd Hrows]. unfold concat. simpl. rewrite !app_nil_r.
  rewrite keep_first_id by done. destruct df as [cols rs]. simpl in *. do 2 f_equal.
  induction Hrows as [|r rs Hr _ IH]; simpl; [done|].
  by rewrite realign_id, IH.
Qed.

Lemma set_column_wf (c : string) (vals : list cell) (df : DataFrame) :
  wf df -> wf (set_column c vals df).
Proof.
  intros [Hnd Hrows]. unfold set_column.
  destruct (col_index c (columns df)) as [i|] eqn:Hi; split; simpl; try done.
  - revert vals. induction Hrows as [|r rs Hr _ IH]; intros [|v vals]; simpl; try constructor.
    + by rewrite length_insert.
    + apply IH.
  - apply NoDup_app. split; [done|]. split; [|apply NoDup_singleton].
    intros x Hx ->%list_elem_of_singleton. by apply col_index_None in Hi.
  - revert vals. induction Hrows as [|r rs Hr _ IH]; intros [|v vals]; simpl; try constructor.
    + rewrite !length_app. simpl. lia.
    + apply IH.
Qed.

Lemma set_column_elem_of_columns (c x : string) (vals : list cell) (df : DataFrame) :
  x ∈ columns (set_column c vals df) <-> x ∈ columns df \/ x = c.
Proof.
  unfold set_column. destruct (col_index c (columns df)) as [i|] eqn:Hi; simpl.
  - apply col_index_Some_elem_of in Hi. split; [tauto | by intros [?| ->]].
  - rewrite elem_of_app, list_elem_of_singleton. done.
Qed.

(** Reading back the column that was just set. *)
Lemma column_set_column (c : string) (vals : list cell) (df : DataFrame) :
  wf df -> length vals = length (rows df) ->
  column c (set_column c vals df) = Ok vals.
Proof.
  intros [Hnd Hrows] Hlen. unfold column.
  rewrite decide_True by (apply set_column_elem_of_columns; by right).
  f_equal. unfold set_column.
  destruct (col_index c (columns df)) as [i|] eqn:Hi; simpl.
  - revert vals Hlen. induction Hrows as [|r rs Hr _ IH]; intros [|v vals] Hlen; try done.
    simpl in *. rewrite IH by lia. f_equal. apply cell_at_insert_eq; [done|].
    rewrite Hr. by eapply lookup_lt_Some, col_index_Some.
  - apply col_index_None in Hi.
    revert vals Hlen. induction Hrows as [|r rs Hr _ IH]; intros [|v vals] Hlen; try done.
    simpl in *. rewrite IH by lia. f_equal. by apply cell_at_snoc_eq.
Qed.

Lemma drop_wf (c : string) (df df' : DataFrame) : drop c df = Ok df' -> wf df -> wf df'.
Proof.
  unfold drop. destruct (col_index c (columns df)) as [i|] eqn:Hi; [|done].
  intros [= <-] [Hnd Hrows]. split; simpl.
  - eapply sublist_NoDup; eauto using sublist_delete.
  - apply Forall_fmap. eapply Forall_impl; [done|]. simpl.
    intros r Hr.
    assert (i < length (columns df)) by (by eapply lookup_lt_Some, col_index_Some).
    rewrite !length_delete by (apply lookup_lt_is_Some; lia). lia.
Qed.

Lemma drop_elem_of_columns (c x : string) (df df' : DataFrame) :
  drop c df = Ok df' -> NoDup (columns df) ->
  x ∈ columns df' <-> x ∈ columns df /\ x <> c.
Proof.
  unfold drop. destruct (col_index c (columns df)) as [i|] eqn:Hi; [|done].
  intros [= <-] Hnd. simpl. apply elem_of_delete_col; [done | by apply col_index_Some].
Qed.

(** Dropping a column leaves the others as they were. *)
Lemma column_drop (c c' : string) (df df' : DataFrame) :
  drop c' df = Ok df' -> NoDup (columns df) -> c <> c' ->
  column c df' = column c df.
Proof.
  intros Hdrop Hnd Hne. unfold column.
  assert (c ∈ columns df' <-> c ∈ columns df) as Hiff.
  { rewrite (drop_elem_of_columns c' c df df') by done. tauto. }
  revert Hdrop. unfold drop.
  destruct (col_index c' (columns df)) as [j|] eqn:Hj; [|done]. intros [= <-]. simpl in *.
  repeat case_decide; try tauto. f_equal.
  rewrite map_map. apply map_ext. intros r. apply cell_at_delete.
  apply col_index_Some in Hj. congruence.
Qed.

End FrameFacts.

(** ** [split_data] *)

Section SplitFacts.
Import Frame Tasks.
Context (lib : thirdparty).

Lemma map_eq_Forall2 {A B C} (f : A -> C) (g : B -> C) (l : list A) (l' : list B) :
  map f l = map g l' -> Forall2 (fun x y => f x = g y) l l'.
Proof.
  revert l'. induction l as [|x l IH]; intros [|y l']; simpl; try done.
  intros [= Hxy Hl]. constructor; auto.
Qed.

Lemma filter_rows_wf (keep : list cell -> Prop) `{forall r, Decision (keep r)} (df : DataFrame) :
  wf df -> wf (filter_rows keep df).
Proof.
  intros [Hnd Hrows]. split; [done|]. simpl.
  apply Forall_forall. intros r [_ Hr]%list_elem_of_filter.
  by eapply Forall_forall in Hrows.
Qed.

Lemma explode_row_length (i : nat) (r r' : list cell) :
  r' ∈ explode_row i r -> length r' = length r.
Proof.
  unfold explode_row. destruct (r !! i) as [[| | | |[|s l]]|];
    try (intros ->%list_elem_of_singleton; by rewrite ?length_insert).
  intros (s' & -> & _)%list_elem_of_fmap. by rewrite length_insert.
Qed.

Lemma explode_wf (c : string) (df df' : DataFrame) :
  explode c df = Ok df' -> wf df -> wf df'.
Proof.
  unfold explode. destruct (col_index c (columns df)) as [i|]; [|done].
  intros [= <-] [Hnd Hrows]. split; [done|]. simpl.
  apply Forall_forall. intros r' (rs & Hr' & (r & -> & Hr)%list_elem_of_fmap)%list_elem_of_join.
  rewrite (explode_row_length _ _ _ Hr'). by eapply Forall_forall in Hrows.
Qed.

(** Filter, then explode: the [doc_chunks] column becomes the chunks of
    all documents, one per row, in order. *)
Lemma explode_filter_chunks (cols : list string) (dc : string) (i : nat)
    (rs : list (list cell)) (chs : list (list string)) :
  col_index dc cols = Some i ->
  Forall2 (fun r ch => cell_at cols r dc = Docs ch) rs chs ->
  map (fun r => cell_at cols r dc)
      (mjoin (map (explode_row i)
                  (filter (fun r => 0 < chunk_count (cell_at cols r dc)) rs)))
  = map Doc (mjoin chs).
Proof.
  intros Hi. induction 1 as [|r ch rs chs Hr _ IH]; [done|].
  destruct ch as [|s ch].
  - rewrite filter_cons_False by (rewrite Hr; simpl; lia). exact IH.
  - rewrite filter_cons_True by (rewrite Hr; simpl; lia).
    cbn [map]. change (mjoin (?a :: ?l)) with (a ++ mjoin l)%list.
    rewrite !map_app, IH. f_equal.
    assert (r !! i = Some (Docs (s :: ch))) as Hri.
    { unfold cell_at in Hr. rewrite Hi in Hr. by destruct (r !! i) as [?|]; simplify_eq/=. }
    unfold explode_row. rewrite Hri. rewrite map_map. apply map_ext. intros s'.
    apply cell_at_insert_eq; [done | by eapply lookup_lt_Some].
Qed.

Lemma traverse_chunk_text (l : list string) :
  traverse (chunk_text lib) (map Doc l)
  = Ok (map (fun s => Str (replace_char "010" " " (html2text lib s))) l).
Proof. induction l as [|s l IH]; simpl; [done|]. by rewrite IH. Qed.

Lemma traverse_strip_backslashes (l : list string) :
  traverse strip_backslashes
    (map (fun s => Str (replace_char "010" " " (html2text lib s))) l)
  = Ok (map (fun s => Str (rendered lib s)) l).
Proof. induction l as [|s l IH]; simpl; [done|]. by rewrite IH. Qed.

Lemma concat_sources_wf md rst slack so code issues reg (df : DataFrame) :
  concat_sources md rst slack so code issues reg = Ok df -> wf df.
Proof. unfold concat_sources. intros H. bind_inv H. by eapply concat_wf. Qed.

(** The labels of the concatenated frame are those of the input frames. *)
Lemma concat_sources_columns md rst slack so code issues reg (df : DataFrame) (c : string) :
  concat_sources md rst slack so code issues reg = Ok df ->
  c ∈ columns df <->
  exists f, f ∈ (md ++ rst ++ slack ++ so ++ code ++ issues ++ reg)%list /\ c ∈ columns f.
Proof.
  unfold concat_sources. intros H. bind_inv H.
  rewrite (concat_elem_of_columns _ _ c H).
  pose proof (concat_elem_of_columns _ _ c E) as Hmd.
  pose proof (concat_elem_of_columns _ _ c E0) as Hrst.
  pose proof (concat_elem_of_columns _ _ c E1) as Hslack.
  pose proof (concat_elem_of_columns _ _ c E2) as Hso.
  pose proof (concat_elem_of_columns _ _ c E3) as Hcode.
  pose proof (concat_elem_of_columns _ _ c E4) as Hissues.
  pose proof (concat_elem_of_columns _ _ c E5) as Hreg.
  clear E E0 E1 E2 E3 E4 E5 H. split.
  - intros (g & Hg & Hc). repeat setoid_rewrite elem_of_app.
    repeat (apply elem_of_cons in Hg as [->|Hg]); try (by apply elem_of_nil in Hg);
      first [ apply Hmd in Hc | apply Hrst in Hc | apply Hslack in Hc | apply Hso in Hc
            | apply Hcode in Hc | apply Hissues in Hc | apply Hreg in Hc ];
      destruct Hc as (f & Hf & Hc); exists f; tauto.
  - intros (f & Hf & Hc). repeat setoid_rewrite elem_of_cons.
    repeat (apply elem_of_app in Hf as [Hf|Hf]).
    + exists a. split; [tauto|]. apply Hmd. eauto.
    + exists a0. split; [tauto|]. apply Hrst. eauto.
    + exists a1. split; [tauto|]. apply Hslack. eauto.
    + exists a2. split; [tauto|]. apply Hso. eauto.
    + exists a3. split; [tauto|]. apply Hcode. eauto.
    + exists a4. split; [tauto|]. apply Hissues. eauto.
    + exists a5. split; [tauto|]. apply Hreg. eauto.
Qed.

(** What [split_data] returns, read off its steps: the frame is
    well-formed, its labels are those of the concatenated frame without
    [doc_chunks] and [header], and its [content] column lists the chunks
    of all documents, rendered, in order. *)
Lemma split_data_inv md rst slack so code issues reg (out : DataFrame) :
  split_data lib md rst slack so code issues reg = Ok out ->
  exists df docs chunks,
    concat_sources md rst slack so code issues reg = Ok df
    /\ column "content" df = Ok docs
    /\ Forall2 (fun d ch => recursive_split_documents lib d = Ok ch) docs chunks
    /\ wf out
    /\ (forall x, x ∈ columns out <->
                   x ∈ columns df /\ x <> "doc_chunks" /\ x <> "header")
    /\ column "content" out = Ok (map (fun s => Str (rendered lib s)) (mjoin chunks)).
Proof.
  unfold split_data. intros H. bind_inv H.
  rename a into df, a0 into docs, a1 into chunks, a2 into df3, a3 into exploded,
    a4 into texts, a5 into texts', a6 into df5.
  exists df, docs, chunks. split; [done|]. split; [done|].
  split; [by apply traverse_Forall2|].
  pose proof (concat_sources_wf _ _ _ _ _ _ _ _ E) as Hwf.
  set (df1 := set_column "doc_chunks" (map Docs chunks) df) in *.
  assert (wf df1) as Hwf1 by by apply set_column_wf.
  assert ("content" ∈ columns df /\ docs = map (fun r => cell_at (columns df) r "content") (rows df))
    as [Hcontent ->].
  { unfold column in E0. case_decide; [|done]. by injection E0 as <-. }
  assert (length chunks = length (rows df)) as Hlen.
  { apply traverse_length in E1. by rewrite E1, length_map. }
  (* the cells of [doc_chunks] before the filter *)
  assert (Forall2 (fun r ch => cell_at (columns df1) r "doc_chunks" = Docs ch) (rows df1) chunks)
    as Hcells.
  { apply map_eq_Forall2.
    pose proof (column_set_column "doc_chunks" (map Docs chunks) df Hwf) as Hcol.
    rewrite length_map in Hcol. specialize (Hcol Hlen). fold df1 in Hcol.
    unfold column in Hcol. case_decide; [|done]. by injection Hcol. }
  (* after the filter and [explode] *)
  assert (wf df3) as Hwf3.
  { eapply explode_wf; [done|]. by apply filter_rows_wf. }
  assert (columns df3 = columns df1 /\
          exploded = map Doc (mjoin chunks) /\ length (rows df3) = length (mjoin chunks))
    as (Hcols3 & -> & Hlen3).
  { revert E2 E3. unfold explode. cbn [filter_rows columns rows].
    destruct (col_index "doc_chunks" (columns df1)) as [i|] eqn:Hi; [|done].
    intros [= <-]. unfold column. cbn [columns rows].
    pose proof (explode_filter_chunks _ _ _ _ _ Hi Hcells) as Hex.
    case_decide; [|done]. intros [= <-]. split; [done|]. split; [done|].
    apply (f_equal length) in Hex. by rewrite !length_map in Hex. }
  assert (texts' = map (fun s => Str (rendered lib s)) (mjoin chunks)) as ->.
  { rewrite traverse_chunk_text in E4. injection E4 as <-.
    rewrite traverse_strip_backslashes in E5. by injection E5 as <-. }
  set (texts' := map (fun s => Str (rendered lib s)) (mjoin chunks)) in *.
  set (df4 := set_column "content" texts' df3) in *.
  assert (wf df4) as Hwf4 by by apply set_column_wf.
  assert (column "content" df4 = Ok texts') as Hcol4.
  { apply column_set_column; [done|]. unfold texts'. by rewrite length_map. }
  assert (wf df5) as Hwf5 by by eapply drop_wf.
  split; [by eapply drop_wf|].
  split.
  - intros x.
    rewrite (drop_elem_of_columns _ x _ _ H) by apply Hwf5.
    rewrite (drop_elem_of_columns _ x _ _ E6) by apply Hwf4.
    unfold df4. rewrite set_column_elem_of_columns, Hcols3.
    unfold df1. rewrite set_column_elem_of_columns.
    split; [|tauto]. intros [[[[?| ->]| ->] ?] ?]; tauto.
  - rewrite (column_drop _ _ _ _ H) by (apply Hwf5 || done).
    rewrite (column_drop _ _ _ _ E6) by (apply Hwf4 || done). done.
Qed.

End SplitFacts.

(** ** Texts *)

Section TextFacts.
Import Frame.

Lemma occurs_app (a : ascii) (s1 s2 : string) :
  occurs a (s1 ++ s2) = occurs a s1 || occurs a s2.
Proof. induction s1 as [|b s1 IH]; simpl; [done|]. by rewrite IH, orb_assoc. Qed.

(** After [replace(old, new)] no [old] is left, unless [new] brings one. *)
Lemma replace_char_occurs_old (old : ascii) (new s : string) :
  occurs old new = false -> occurs old (replace_char old new s) = false.
Proof.
  intros Hnew. induction s as [|b s IH]; simpl; [done|].
  destruct (Ascii.eqb b old) eqn:Hb.
  - by rewrite occurs_app, Hnew, IH.
  - simpl. by rewrite Hb, IH.
Qed.

(** A character that was absent stays absent, unless [new] brings it. *)
Lemma replace_char_occurs_other (a old : ascii) (new s : string) :
  occurs a new = false -> occurs a s = false ->
  occurs a (replace_char old new s) = false.
Proof.
  intros Hnew. induction s as [|b s IH]; simpl; [done|].
  intros [Hb Hs]%orb_false_elim. destruct (Ascii.eqb b old).
  - by rewrite occurs_app, Hnew, IH.
  - simpl. by rewrite Hb, IH.
Qed.




End TextFacts.

(** ** What [split_data] returns *)

Section SplitTheorems.
Import Frame Tasks.
Context (lib : thirdparty).

Lemma rendered_clean (s : string) :
  occurs "010" (rendered lib s) = false /\ occurs "\" (rendered lib s) = false.
Proof.
  unfold rendered. split.
  - apply replace_char_occurs_other; [done|]. by apply replace_char_occurs_old.
  - by apply replace_char_occurs_old.
Qed.


(** The rows of the result against its [content] column. *)
Lemma split_data_rows md rst slack so code issues reg (out : DataFrame) :
  split_data lib md rst slack so code issues reg = Ok out ->
  exists df docs chunks,
    concat_sources md rst slack so code issues reg = Ok df
    /\ column "content" df = Ok docs
    /\ Forall2 (fun d ch => recursive_split_documents lib d = Ok ch) docs chunks
    /\ Forall2 (fun r s => cell_at (columns out) r "content" = Str (rendered lib s))
               (rows out) (mjoin chunks).
Proof.
  intros (df & docs & chunks & Hdf & Hdocs & Hchunks & _ & _ & Hcol)%split_data_inv.
  exists df, docs, chunks. repeat (split; [done|]).
  unfold column in Hcol. case_decide; [|done]. injection Hcol as Hcol.
  by apply map_eq_Forall2 in Hcol.
Qed.

(** C10.  Every content value of the frame that [split_data] returns is a
    text without newline and without backslash: it is the rendering of a
    chunk with the newlines replaced by spaces and the backslashes
    removed. *)
Theorem split_data_content_clean md rst slack so code issues reg (out : DataFrame) :
  split_data lib md rst slack so code issues reg = Ok out ->
  forall r, r ∈ rows out ->
    exists chunk,
      cell_at (columns out) r "content"
        = Str (replace_char "\" "" (replace_char "010" " " (html2text lib chunk)))
      /\ occurs "010" (replace_char "\" "" (replace_char "010" " " (html2text lib chunk))) = false
      /\ occurs "\" (replace_char "\" "" (replace_char "010" " " (html2text lib chunk))) = false.
Proof.
  intros (df & docs & chunks & _ & _ & _ & Hrows)%split_data_rows r Hr.
  apply list_elem_of_lookup_1 in Hr as [i Hi].
  destruct (Forall2_lookup_l _ _ _ _ _ Hrows Hi) as (chunk & _ & Hcell).
  exists chunk. split; [exact Hcell|]. apply rendered_clean.
Qed.



(** C5.  When every input frame has the record shape (the four fields,
    with or without [header]), the frame that [split_data] returns has
    exactly the fields [docSource], [sha], [docLink] and [content]:
    [header] is gone and every record holds four cells. *)
Theorem split_data_record_shape md rst slack so code issues reg (out : DataFrame) :
  Forall record_shape (md ++ rst ++ slack ++ so ++ code ++ issues ++ reg)%list ->
  split_data lib md rst slack so code issues reg = Ok out ->
  columns out ≡ₚ ["docSource"; "sha"; "docLink"; "content"]
  /\ ("header" ∉ columns out)
  /\ Forall (fun r => length r = 4) (rows out).
Proof.
  intros Hshape (df & docs & chunks & Hdf & _ & _ & [Hnd Hrows] & Hcols & _)%split_data_inv.
  assert (forall x, x ∈ columns out <-> x ∈ record_fields) as Hiff.
  { intros x. rewrite Hcols, (concat_sources_columns _ _ _ _ _ _ _ _ x Hdf). split.
    - intros [(f & Hf & Hx) [Hdc Hh]].
      eapply Forall_forall in Hshape as [_ Hsub]; [|exact Hf].
      apply Hsub in Hx. apply elem_of_cons in Hx as [->|Hx]; done.
    - intros Hx. split.
      + assert (exists f, f ∈ md) as [f Hf].
        { unfold concat_sources in Hdf. bind_inv Hdf.
          apply concat_Ok in E as [Hne _]. destruct md as [|f ?]; [done|].
          exists f. by left. }
        exists f. assert (f ∈ (md ++ rst ++ slack ++ so ++ code ++ issues ++ reg)%list) as Hin
          by (apply elem_of_app; by left).
        split; [done|]. eapply Forall_forall in Hshape as [Hsub _]; [|exact Hin]. by apply Hsub.
      + unfold record_fields in Hx.
        repeat (apply elem_of_cons in Hx as [->|Hx]); try done. by apply elem_of_nil in Hx. }
  assert (columns out ≡ₚ record_fields) as Hperm.
  { apply NoDup_Permutation; [done | by apply (bool_decide_unpack _) | done]. }
  split; [done|]. split.
  - rewrite Hiff. by apply (bool_decide_unpack _).
  - eapply Forall_impl; [done|]. simpl. intros r ->. by rewrite Hperm.
Qed.


End SplitTheorems.

Section SplitReturns.
Import Frame Tasks.
Context (lib : thirdparty).

Lemma bind_Ok_intro {A B} (f : A -> result B) (r : result A) (a : A) (b : B) :
  r = Ok a -> f a = Ok b -> r ≫= f = Ok b.
Proof. by intros -> ?. Qed.

Lemma drop_returns (c : string) (df : DataFrame) :
  c ∈ columns df -> exists df', drop c df = Ok df'.
Proof. intros [i Hi]%col_index_elem_of. unfold drop. rewrite Hi. eauto. Qed.

(** [split_data] returns whenever the sources concatenate, the
    concatenated frame has the [content] and [header] columns and the
    splitter answers for every document: the filter drops the documents
    without chunk instead of letting them fail later. *)
Lemma split_data_returns md rst slack so code issues reg
    (df : DataFrame) (docs : list cell) (chunks : list (list string)) :
  concat_sources md rst slack so code issues reg = Ok df ->
  column "content" df = Ok docs ->
  Forall2 (fun d ch => recursive_split_documents lib d = Ok ch) docs chunks ->
  "header" ∈ columns df ->
  exists out, split_data lib md rst slack so code issues reg = Ok out.
Proof.
  intros Hdf Hdocs Hchunks Hheader.
  pose proof (concat_sources_wf _ _ _ _ _ _ _ _ Hdf) as Hwf.
  set (df1 := set_column "doc_chunks" (map Docs chunks) df).
  assert (wf df1) as Hwf1 by by apply set_column_wf.
  assert (length chunks = length (rows df)) as Hlen.
  { apply Forall2_length in Hchunks. rewrite <- Hchunks.
    unfold column in Hdocs. case_decide; [|done]. injection Hdocs as <-. by rewrite length_map. }
  assert (Forall2 (fun r ch => cell_at (columns df1) r "doc_chunks" = Docs ch) (rows df1) chunks)
    as Hcells.
  { apply map_eq_Forall2.
    pose proof (column_set_column "doc_chunks" (map Docs chunks) df Hwf) as Hcol.
    rewrite length_map in Hcol. specialize (Hcol Hlen). fold df1 in Hcol.
    unfold column in Hcol. case_decide; [|done]. by injection Hcol. }
  assert ("doc_chunks" ∈ columns df1) as Hdc by (apply set_column_elem_of_columns; by right).
  destruct (col_index_elem_of _ _ Hdc) as [i Hi].
  set (keep := fun r : list cell => 0 < chunk_count (cell_at (columns df1) r "doc_chunks")).
  set (df3 := {| columns := columns df1;
                 rows := mjoin (map (explode_row i) (filter keep (rows df1))) |}).
  assert (explode "doc_chunks" (filter_rows keep df1) = Ok df3) as Hexplode.
  { unfold explode. cbn [filter_rows columns rows]. by rewrite Hi. }
  assert (wf df3) as Hwf3 by (eapply explode_wf; [done | by apply filter_rows_wf]).
  assert (map (fun r => cell_at (columns df3) r "doc_chunks") (rows df3) = map Doc (mjoin chunks))
    as Hexploded by exact (explode_filter_chunks _ _ _ _ _ Hi Hcells).
  set (texts := map (fun s => Str (rendered lib s)) (mjoin chunks)).
  set (df4 := set_column "content" texts df3).
  assert (wf df4) as Hwf4 by by apply set_column_wf.
  assert ("doc_chunks" ∈ columns df4) as Hdc4 by (apply set_column_elem_of_columns; by left).
  destruct (drop_returns _ _ Hdc4) as [df5 Hdf5].
  assert ("header" ∈ columns df5) as Hh5.
  { apply (drop_elem_of_columns _ _ _ _ Hdf5); [apply Hwf4|]. split; [|done].
    apply set_column_elem_of_columns. left. cbn [df3 columns].
    apply set_column_elem_of_columns. by left. }
  destruct (drop_returns _ _ Hh5) as [out Hout].
  exists out. unfold split_data.
  eapply bind_Ok_intro; [exact Hdf|].
  eapply bind_Ok_intro; [exact Hdocs|].
  eapply bind_Ok_intro; [by apply traverse_Forall2|]. cbv zeta.
  eapply bind_Ok_intro; [exact Hexplode|].
  eapply bind_Ok_intro.
  { unfold column. rewrite decide_True by done. by rewrite Hexploded. }
  eapply bind_Ok_intro; [apply traverse_chunk_text|].
  eapply bind_Ok_intro; [apply traverse_strip_backslashes|].
  eapply bind_Ok_intro; [exact Hdf5 | exact Hout].
Qed.

Lemma concat_returns (dfs : list DataFrame) : dfs <> [] -> exists df, concat dfs = Ok df.
Proof. destruct dfs; [done|]. intros _. unfold concat. eauto. Qed.

Lemma cell_at_realign (cols fcols : list string) (r : list cell) (c : string) :
  c ∈ cols -> cell_at cols (map (cell_at fcols r) cols) c = cell_at fcols r c.
Proof.
  induction cols as [|c0 cols IH]; simpl; [by intros ?%elem_of_nil|].
  intros Hc. destruct (decide (c = c0)) as [->|Hne].
  - by rewrite cell_at_cons_eq.
  - rewrite cell_at_cons_ne by done. apply IH.
    by apply elem_of_cons in Hc as [?|?].
Qed.

Lemma cell_at_absent (cols : list string) (r : list cell) (c : string) :
  c ∉ cols -> cell_at cols r c = NaN.
Proof. intros Hc%col_index_None. unfold cell_at. by rewrite Hc. Qed.

(** Every row of a concatenation is a row of one of the frames, with the
    same cell under every label. *)
Lemma concat_cell (dfs : list DataFrame) (df : DataFrame) (r' : list cell) :
  concat dfs = Ok df -> r' ∈ rows df ->
  exists f r, f ∈ dfs /\ r ∈ rows f
    /\ forall c, cell_at (columns df) r' c = cell_at (columns f) r c.
Proof.
  intros Hdf Hr'. pose proof Hdf as [_ ->]%concat_Ok. cbn [rows columns] in *.
  apply list_elem_of_join in Hr' as (rs & Hr' & (f & -> & Hf)%list_elem_of_fmap).
  apply list_elem_of_fmap in Hr' as (r & -> & Hr).
  exists f, r. split; [done|]. split; [done|]. intros c.
  destruct (decide (c ∈ keep_first (mjoin (map columns dfs)))) as [Hc|Hc].
  - by apply cell_at_realign.
  - rewrite !cell_at_absent; [done| |done]. intros Hcf. apply Hc.
    apply keep_first_elem_of, list_elem_of_join. exists (columns f). split; [done|].
    apply list_elem_of_fmap. eauto.
Qed.

Lemma concat_sources_cell md rst slack so code issues reg (df : DataFrame) (r' : list cell) :
  concat_sources md rst slack so code issues reg = Ok df -> r' ∈ rows df ->
  exists f r, f ∈ (md ++ rst ++ slack ++ so ++ code ++ issues ++ reg)%list /\ r ∈ rows f
    /\ forall c, cell_at (columns df) r' c = cell_at (columns f) r c.
Proof.
  unfold concat_sources. intros H Hr'. bind_inv H.
  destruct (concat_cell _ _ _ H Hr') as (g & r1 & Hg & Hr1 & Hc1).
  repeat setoid_rewrite elem_of_app.
  repeat (apply elem_of_cons in Hg as [->|Hg]); try (by apply elem_of_nil in Hg);
    match goal with
    | E : concat _ = Ok ?g |- _ =>
        lazymatch type of Hr1 with _ ∈ rows g =>
          destruct (concat_cell _ _ _ E Hr1) as (f & r & Hf & Hr & Hc)
        end
    end;
    exists f, r; (split; [tauto|]); (split; [done|]); intros c; by rewrite Hc1, Hc.
Qed.

Lemma concat_sources_returns md rst slack so code issues reg :
  md <> [] -> rst <> [] -> slack <> [] -> so <> [] -> code <> [] -> issues <> [] -> reg <> [] ->
  exists df, concat_sources md rst slack so code issues reg = Ok df.
Proof.
  intros [? H1]%concat_returns [? H2]%concat_returns [? H3]%concat_returns
    [? H4]%concat_returns [? H5]%concat_returns [? H6]%concat_returns [? H7]%concat_returns.
  unfold concat_sources. rewrite H1, H2, H3, H4, H5, H6, H7. simpl. eauto.
Qed.

(** X9.  On input frames of the record shape, none of the seven lists
    empty, one frame at least with a [header], and a splitter that answers
    for the content of every input record, [split_data] returns a frame. *)
Lemma split_data_returns_on_records md rst slack so code issues reg :
  md <> [] -> rst <> [] -> slack <> [] -> so <> [] -> code <> [] -> issues <> [] -> reg <> [] ->
  Forall record_shape (md ++ rst ++ slack ++ so ++ code ++ issues ++ reg)%list ->
  Exists (fun f => "header" ∈ columns f) (md ++ rst ++ slack ++ so ++ code ++ issues ++ reg)%list ->
  (forall f r, f ∈ (md ++ rst ++ slack ++ so ++ code ++ issues ++ reg)%list -> r ∈ rows f ->
     exists ch, recursive_split_documents lib (cell_at (columns f) r "content") = Ok ch) ->
  exists out, split_data lib md rst slack so code issues reg = Ok out.
Proof.
  intros N1 N2 N3 N4 N5 N6 N7 Hshape Hheader Hsplit.
  destruct (concat_sources_returns _ _ _ _ _ _ _ N1 N2 N3 N4 N5 N6 N7) as [df Hdf].
  assert ("content" ∈ columns df) as Hcontent.
  { apply (concat_sources_columns _ _ _ _ _ _ _ _ _ Hdf).
    destruct md as [|f ?]; [done|]. exists f. split; [by left|].
    apply Forall_cons in Hshape as [[Hsub _] _]. apply Hsub. by apply (bool_decide_unpack _). }
  assert (exists chunks,
            Forall2 (fun d ch => recursive_split_documents lib d = Ok ch)
                    (map (fun r => cell_at (columns df) r "content") (rows df)) chunks)
    as [chunks Hchunks].
  { assert (forall r', r' ∈ rows df ->
              exists ch, recursive_split_documents lib (cell_at (columns df) r' "content") = Ok ch)
      as Hall.
    { intros r' Hr'. destruct (concat_sources_cell _ _ _ _ _ _ _ _ _ Hdf Hr')
        as (f & r & Hf & Hr & Hc). rewrite Hc. by apply Hsplit. }
    clear -Hall. induction (rows df) as [|r rs IH]; [by exists []|].
    destruct (Hall r) as [ch Hch]; [by left|].
    destruct IH as [chs Hchs]; [intros; apply Hall; by right|].
    exists (ch :: chs). by constructor. }
  eapply split_data_returns; [exact Hdf | | exact Hchunks |].
  - unfold column. by rewrite decide_True.
  - apply (concat_sources_columns _ _ _ _ _ _ _ _ _ Hdf).
    apply Exists_exists in Hheader as (f & Hf & Hh). eauto.
Qed.

End SplitReturns.

Section SplitSamples.
Import Frame Tasks Sample.

Lemma split_data_content_clean_witness :
  exists out,
    split_data library [docs_frame] [docs_frame] [docs_frame] [issues_frame]
      [docs_frame] [issues_frame] [docs_frame] = Ok out
    /\ length (rows out) = 7
    /\ forall r, r ∈ rows out ->
         exists chunk,
           cell_at (columns out) r "content"
             = Str (replace_char "\" "" (replace_char "010" " " (html2text library chunk)))
           /\ occurs "010" (replace_char "\" "" (replace_char "010" " " (html2text library chunk)))
               = false
           /\ occurs "\" (replace_char "\" "" (replace_char "010" " " (html2text library chunk)))
               = false.
Proof.
  eexists. split; [vm_compute; reflexivity|]. split; [reflexivity|].
  apply (split_data_content_clean library [docs_frame] [docs_frame] [docs_frame]
           [issues_frame] [docs_frame] [issues_frame] [docs_frame]).
  vm_compute; reflexivity.
Defined.



Lemma split_data_record_shape_witness :
  exists out,
    Forall record_shape ([docs_frame] ++ [docs_frame] ++ [docs_frame] ++ [issues_frame]
                         ++ [docs_frame] ++ [issues_frame] ++ [docs_frame])%list
    /\ split_data library [docs_frame] [docs_frame] [docs_frame] [issues_frame]
         [docs_frame] [issues_frame] [docs_frame] = Ok out
    /\ columns out ≡ₚ ["docSource"; "sha"; "docLink"; "content"]
    /\ ("header" ∉ columns out)
    /\ Forall (fun r => length r = 4) (rows out).
Proof.
  eexists.
  assert (Forall record_shape ([docs_frame] ++ [docs_frame] ++ [docs_frame] ++ [issues_frame]
                               ++ [docs_frame] ++ [issues_frame] ++ [docs_frame])%list) as Hshape.
  { apply (bool_decide_unpack _). vm_compute. reflexivity. }
  split; [exact Hshape|].
  split; [vm_compute; reflexivity|].
  apply (split_data_record_shape library [docs_frame] [docs_frame] [docs_frame]
           [issues_frame] [docs_frame] [issues_frame] [docs_frame]); [exact Hshape|].
  vm_compute; reflexivity.
Defined.



End SplitSamples.

(** ** [import_data] *)

Section ImportFacts.
Import Frame Tasks.
Context (lib : thirdparty).

(** What [import_data] hands over for a well-formed frame. *)
Lemma import_data_uuid (df : DataFrame) (cls : string) (i : nat) (r : list cell) :
  wf df -> rows df !! i = Some r ->
  exists a, import_data lib df cls = Ok a
    /\ uuid_of a i = Some (Str (generate_uuid5 lib (IdDict (to_dict (columns df) r)))).
Proof.
  intros Hwf Hr. unfold import_data. rewrite concat_single by done. simpl.
  eexists. split; [reflexivity|]. unfold uuid_of. simpl.
  rewrite column_set_column by (done || by rewrite length_map).
  change (map ?f ?l) with (f <$> l). by rewrite list_lookup_fmap, Hr.
Qed.

(** C2.  The uuid that [import_data] computes for a record is a function
    of the record's fields alone: two records with the same fields get the
    same uuid, whatever the frame, the position in it, the other records
    and the class they are imported to. *)
Theorem import_data_uuid_deterministic (d1 d2 : DataFrame) (c1 c2 : string)
    (i j : nat) (r : list cell) :
  wf d1 -> wf d2 -> columns d1 = columns d2 ->
  rows d1 !! i = Some r -> rows d2 !! j = Some r ->
  exists a1 a2 u,
    import_data lib d1 c1 = Ok a1 /\ import_data lib d2 c2 = Ok a2
    /\ uuid_of a1 i = Some u /\ uuid_of a2 j = Some u
    /\ u = Str (generate_uuid5 lib (IdDict (to_dict (columns d1) r))).
Proof.
  intros Hwf1 Hwf2 Hcols Hi Hj.
  destruct (import_data_uuid d1 c1 i r Hwf1 Hi) as (a1 & Ha1 & Hu1).
  destruct (import_data_uuid d2 c2 j r Hwf2 Hj) as (a2 & Ha2 & Hu2).
  exists a1, a2. eexists. repeat (split; [eassumption|]).
  split; [by rewrite Hcols | done].
Qed.

End ImportFacts.

Section ImportSamples.
Import Frame Tasks Sample.

Lemma import_data_uuid_deterministic_witness :
  wf docs_frame /\ wf reordered_frame
  /\ columns docs_frame = columns reordered_frame
  /\ rows docs_frame !! 1 = rows reordered_frame !! 0
  /\ exists a1 a2 u,
       import_data library docs_frame "Docs" = Ok a1
       /\ import_data library reordered_frame "Archive" = Ok a2
       /\ uuid_of a1 1 = Some u /\ uuid_of a2 0 = Some u
       /\ u = Str (generate_uuid5 library
                    (IdDict (to_dict (columns docs_frame)
                       [Str "learn"; Str "9c1b";
                        Str "https://github.com/astronomer/docs/learn/b.md";
                        Str EmptyString]))).
Proof.
  assert (wf docs_frame) as H1 by (apply (bool_decide_unpack _); vm_compute; reflexivity).
  assert (wf reordered_frame) as H2 by (apply (bool_decide_unpack _); vm_compute; reflexivity).
  split; [exact H1|]. split; [exact H2|]. split; [reflexivity|]. split; [reflexivity|].
  apply (import_data_uuid_deterministic library docs_frame reordered_frame "Docs" "Archive" 1 0);
    (exact H1 || exact H2 || reflexivity).
Defined.

End ImportSamples.

(** ** The extract tasks *)

Section ExtractFacts.
Import Frame Tasks.
Context (lib : thirdparty).

Lemma read_parquet_Ok (fs : filesystem) (path : string) (df : DataFrame) :
  read_parquet fs path = Ok df -> fs path = Some df.
Proof. apply from_option_Ok. Qed.


End ExtractFacts.

Section ExtractSamples.
Import Frame Tasks Sample.


End ExtractSamples.

(** ** [extract_slack] *)

Section SlackFacts.
Import Frame Tasks.
Context (lib : thirdparty).

#[local] Instance ts_le_total : Total ts_le.
Proof. intros a b. unfold ts_le. lia. Qed.

#[local] Instance ts_le_trans : Transitive ts_le.
Proof. intros a b c. unfold ts_le. lia. Qed.


Lemma astype_float_range (c th : cell) :
  astype_float lib c = Ok th -> th = NaN \/ exists k, th = Num k.
Proof.
  destruct c; simpl; try discriminate.
  - intros [= <-]. by left.
  - destruct (parse_float lib s); [|discriminate]. intros [= <-]. eauto.
  - intros [= <-]. eauto.
Qed.

Lemma reply_md_message (r : list cell) (th t : cell) (m : message) :
  astype_float lib (default NaN (r !! 3)) = Ok th ->
  astype_float lib (default NaN (r !! 2)) = Ok t ->
  reply_md lib (default NaN (r !! 0)) (default NaN (r !! 1)) t (fillna th t) = Ok m ->
  message_of_row lib r m.
Proof.
  intros Hth Ht. unfold reply_md. destruct t as [|?|z|?|?]; try discriminate.
  intros H. bind_inv H. injection H as <-. simpl. split; [done|]. split.
  - exists th. split; [done|].
    destruct (astype_float_range _ _ Hth) as [->|[k ->]]; simpl; split; (done || congruence).
  - by exists a.
Qed.

Lemma messages_of_rows (rs : list (list cell)) (threads stamps : list cell)
    (ms : list message) :
  Forall2 (fun r th => astype_float lib (default NaN (r !! 3)) = Ok th) rs threads ->
  Forall2 (fun r t => astype_float lib (default NaN (r !! 2)) = Ok t) rs stamps ->
  traverse (fun '(r, (t, k)) =>
              reply_md lib (default NaN (r !! 0)) (default NaN (r !! 1)) t k)
           (zip rs (zip stamps (zip_with fillna threads stamps))) = Ok ms ->
  Forall2 (message_of_row lib) rs ms.
Proof.
  intros Hth. revert stamps ms.
  induction Hth as [|r th rs threads Hr _ IH]; intros stamps ms Hst; inversion Hst; subst; simpl.
  - intros [= <-]. constructor.
  - intros H. bind_inv H. injection H as <-. constructor; [|by eapply IH].
    by eapply reply_md_message.
Qed.

Lemma slack_messages_rows (rs : list (list cell)) (ms : list message) :
  slack_messages lib rs = Ok ms -> Forall2 (message_of_row lib) rs ms.
Proof.
  unfold slack_messages. intros H. bind_inv H.
  apply traverse_Forall2 in E, E0. destruct rs as [|r rs]; [done|].
  by eapply messages_of_rows.
Qed.








End SlackFacts.

Section SlackSamples.
Import Frame Tasks Sample.


End SlackSamples.

(** * Further properties *)

(** ** The branch tasks: errors and edges *)

Section BranchEdges.
Import Branch.

(** Whatever [check_object_count] selects, it selects the extract tasks. *)
Lemma check_object_count_Some (run : string -> outcome) (doc_count : gmap string Z)
    (cls : string) (ids : list string) :
  check_object_count run doc_count cls = Ok (Some ids) -> ids = extract_task_ids.
Proof.
  unfold check_object_count. intros H. bind_inv H.
  destruct (truthy a0); [|by injection H as <-].
  bind_inv H. destruct a3; [discriminate | by injection H as <-].
Qed.

(** X1.  When the count query raises, [check_object_count] never skips the
    extraction: it does not return [None], and the only value it can
    return is the list of the seven extract task ids. *)
Theorem check_object_count_raised_never_skips (run : string -> outcome)
    (doc_count : gmap string Z) (cls : string) (e : pyexn) :
  run (aggregate_query cls) = Raised e ->
  check_object_count run doc_count cls <> Ok None
  /\ (forall r, check_object_count run doc_count cls = Ok r -> r = Some extract_task_ids).
Proof.
  intros Hrun.
  assert (forall r, check_object_count run doc_count cls = Ok r -> r = Some extract_task_ids) as H.
  { unfold check_object_count, handler. rewrite Hrun. intros r H.
    destruct (status_code e) as [sc|]; simpl in H; [|discriminate].
    destruct (py_eq_int sc 422); simpl in H; [|discriminate].
    destruct (message e) as [m|]; simpl in H; [|discriminate].
    destruct (py_in _ m) as [[|]|]; simpl in H; try discriminate.
    by injection H as <-. }
  split; [|exact H]. intros Hnone. by apply H in Hnone.
Qed.

Lemma check_object_count_raised_never_skips_witness :
  check_object_count (fun _ => Raised Sample.no_schema_error) weaviate_doc_count "Docs" <> Ok None
  /\ (forall r, check_object_count (fun _ => Raised Sample.no_schema_error)
                  weaviate_doc_count "Docs" = Ok r -> r = Some extract_task_ids).
Proof.
  apply (check_object_count_raised_never_skips (fun _ => Raised Sample.no_schema_error)
           weaviate_doc_count "Docs" Sample.no_schema_error).
  reflexivity.
Defined.

(** X2.  An exception that the handler does not recognise fails the task
    with an error of the handler's own: [AttributeError] when the
    exception has no [status_code], [UnboundLocalError] when its
    [status_code] is not 422. *)
Theorem check_object_count_unrecognised_exception (run : string -> outcome)
    (doc_count : gmap string Z) (cls : string) (e : pyexn) :
  run (aggregate_query cls) = Raised e ->
  (status_code e = None -> check_object_count run doc_count cls = Raise AttributeError)
  /\ (forall sc, status_code e = Some sc -> py_eq_int sc 422 = false ->
        check_object_count run doc_count cls = Raise UnboundLocalError).
Proof.
  intros Hrun. unfold check_object_count, handler. rewrite Hrun. split.
  - by intros ->.
  - intros sc -> Hsc. simpl. by rewrite Hsc.
Qed.

Lemma check_object_count_unrecognised_exception_witness :
  check_object_count (fun _ => Raised {| status_code := None; message := None |})
    weaviate_doc_count "Docs" = Raise AttributeError
  /\ check_object_count (fun _ => Raised Sample.server_error) weaviate_doc_count "Docs"
     = Raise UnboundLocalError.
Proof.
  split.
  - apply (check_object_count_unrecognised_exception
             (fun _ => Raised {| status_code := None; message := None |})
             weaviate_doc_count "Docs" {| status_code := None; message := None |});
      reflexivity.
  - apply (proj2 (check_object_count_unrecognised_exception
                    (fun _ => Raised Sample.server_error) weaviate_doc_count "Docs"
                    Sample.server_error eq_refl) (VInt 500)); reflexivity.
Defined.

(** X3.  A falsy answer of the index (an empty dict, [None]) selects the
    extract tasks at once: neither the answer nor [weaviate_doc_count] is
    looked into, so the class need not even have a target. *)
Theorem check_object_count_falsy_response (run : string -> outcome)
    (doc_count : gmap string Z) (cls : string) (response : pyval) :
  run (aggregate_query cls) = Returned response ->
  truthy response = false ->
  check_object_count run doc_count cls = Ok (Some extract_task_ids).
Proof. intros Hrun Hfalsy. unfold check_object_count. rewrite Hrun. simpl. by rewrite Hfalsy. Qed.

Lemma check_object_count_falsy_response_witness :
  truthy (VDict ∅) = false
  /\ check_object_count (fun _ => Returned (VDict ∅)) ∅ "Docs" = Ok (Some extract_task_ids).
Proof.
  split; [reflexivity|].
  apply (check_object_count_falsy_response (fun _ => Returned (VDict ∅)) ∅ "Docs" (VDict ∅));
    reflexivity.
Defined.

(** X4.  A truthy answer that does not hold the count path fails the task
    with the error of the subscript that fails, and an answer with a count
    fails it with [KeyError] when the class has no target in
    [weaviate_doc_count]. *)
Theorem check_object_count_malformed_response (run : string -> outcome)
    (doc_count : gmap string Z) (cls : string) (response : pyval) :
  run (aggregate_query cls) = Returned response ->
  truthy response = true ->
  (forall err, reported_count response cls = Raise err ->
     check_object_count run doc_count cls = Raise err)
  /\ (forall count, reported_count response cls = Ok count -> doc_count !! cls = None ->
        check_object_count run doc_count cls = Raise KeyError).
Proof.
  intros Hrun Htruthy. unfold check_object_count. rewrite Hrun. simpl. rewrite Htruthy. split.
  - by intros err ->.
  - intros count -> Hcls. simpl. by rewrite Hcls.
Qed.

Lemma check_object_count_malformed_response_witness :
  truthy Sample.error_response = true
  /\ reported_count Sample.error_response "Docs" = Raise KeyError
  /\ check_object_count (fun _ => Returned Sample.error_response) weaviate_doc_count "Docs"
     = Raise KeyError
  /\ check_object_count (fun _ => Returned (Sample.count_response 7307)) ∅ "Docs"
     = Raise KeyError.
Proof.
  split; [vm_compute; reflexivity|]. split; [vm_compute; reflexivity|]. split.
  - apply (check_object_count_malformed_response (fun _ => Returned Sample.error_response)
             weaviate_doc_count "Docs" Sample.error_response); vm_compute; reflexivity.
  - apply (proj2 (check_object_count_malformed_response
                    (fun _ => Returned (Sample.count_response 7307)) ∅ "Docs"
                    (Sample.count_response 7307) eq_refl eq_refl) (VInt 7307));
      vm_compute; reflexivity.
Defined.

(** X5.  The task ids that the two branch tasks return are direct
    downstream tasks of theirs in the graph of lines 665 to 667, for every
    input: [recreate_schema_branch] always returns one of its two
    successors, and what [check_object_count] returns is, up to order, the
    list of its seven successors. *)
Theorem branch_ids_downstream :
  (forall schema_exists, exists ids,
     recreate_schema_branch schema_exists = Some ids
     /\ ids ⊆ Dag.downstream "recreate_schema_branch")
  /\ (forall run doc_count cls ids,
        check_object_count run doc_count cls = Ok (Some ids) ->
        ids ≡ₚ Dag.downstream "check_object_count").
Proof.
  split.
  - intros v. unfold recreate_schema_branch. destruct (truthy v); simpl;
      eexists; (split; [reflexivity|]); by apply (bool_decide_unpack _).
  - intros run doc_count cls ids ->%check_object_count_Some.
    apply (bool_decide_unpack _). vm_compute. reflexivity.
Qed.

Lemma branch_ids_downstream_witness :
  check_object_count (fun _ => Returned (Sample.count_response 12)) weaviate_doc_count "Docs"
    = Ok (Some extract_task_ids)
  /\ extract_task_ids ≡ₚ Dag.downstream "check_object_count".
Proof.
  split; [vm_compute; reflexivity|].
  apply (proj2 branch_ids_downstream (fun _ => Returned (Sample.count_response 12))
           weaviate_doc_count "Docs"). vm_compute; reflexivity.
Defined.

End BranchEdges.

(** ** Frames, row by row *)

Section FrameRows.
Import Frame.

Lemma cell_at_insert_ne (c c' : string) (cols : list string) (r : list cell) (i : nat) (v : cell) :
  col_index c cols = Some i -> c' <> c ->
  cell_at cols (<[i:=v]> r) c' = cell_at cols r c'.
Proof.
  intros Hi Hne. unfold cell_at. destruct (col_index c' cols) as [j|] eqn:Hj; [|done].
  rewrite list_lookup_insert_ne; [done|]. intros ->.
  apply col_index_Some in Hi, Hj. congruence.
Qed.

Lemma cell_at_snoc_ne (c c' : string) (cols : list string) (r : list cell) (v : cell) :
  c' <> c -> length r = length cols ->
  cell_at (cols ++ [c]) (r ++ [v]) c' = cell_at cols r c'.
Proof.
  revert r. induction cols as [|c0 cols IH]; intros r Hne Hlen.
  - destruct r; [|done]. unfold cell_at. simpl. by rewrite decide_False.
  - destruct r as [|x r]; [done|]. simpl in *.
    destruct (decide (c' = c0)) as [->|Hne0].
    + by rewrite !cell_at_cons_eq.
    + rewrite !cell_at_cons_ne by done. apply IH; [done | lia].
Qed.

Lemma drop_Ok_elem_of (c : string) (df df' : DataFrame) :
  drop c df = Ok df' -> c ∈ columns df.
Proof.
  unfold drop. destruct (col_index c (columns df)) as [i|] eqn:Hi; [|done].
  intros _. by eapply col_index_Some_elem_of.
Qed.

Lemma explode_columns (c : string) (df df' : DataFrame) :
  explode c df = Ok df' -> columns df' = columns df.
Proof.
  unfold explode. destruct (col_index c (columns df)); [|done]. by intros [= <-].
Qed.

(** A row after [drop] is a row from before, the other cells in place. *)
Lemma drop_rows_cell (c : string) (df df' : DataFrame) (r' : list cell) :
  drop c df = Ok df' -> r' ∈ rows df' ->
  exists r, r ∈ rows df
    /\ forall x, x <> c -> cell_at (columns df') r' x = cell_at (columns df) r x.
Proof.
  unfold drop. destruct (col_index c (columns df)) as [i|] eqn:Hi; [|done].
  intros [= <-]. cbn [rows columns].
  intros (r & -> & Hr)%list_elem_of_fmap. exists r. split; [done|].
  intros x Hx. apply cell_at_delete. apply col_index_Some in Hi. congruence.
Qed.

(** A row after [df[c] = vals] is the row of the same position from
    before, with the value of that position under [c]. *)
Lemma set_column_rows_cell (c : string) (vals : list cell) (df : DataFrame) (r' : list cell) :
  wf df -> r' ∈ rows (set_column c vals df) ->
  exists i r v, rows df !! i = Some r /\ vals !! i = Some v
    /\ cell_at (columns (set_column c vals df)) r' c = v
    /\ forall x, x <> c -> cell_at (columns (set_column c vals df)) r' x = cell_at (columns df) r x.
Proof.
  intros [Hnd Hrows]. unfold set_column.
  destruct (col_index c (columns df)) as [j|] eqn:Hj; cbn [rows columns];
    intros (i & r & v & -> & Hr & Hv)%elem_of_lookup_zip_with;
    exists i, r, v; (split; [done|]); (split; [done|]);
    assert (length r = length (columns df)) as Hlen
      by (eapply Forall_forall in Hrows; [done | by eapply list_elem_of_lookup_2]).
  - split.
    + apply cell_at_insert_eq; [done|]. rewrite Hlen. by eapply lookup_lt_Some, col_index_Some.
    + intros x Hx. by eapply cell_at_insert_ne.
  - apply col_index_None in Hj. split.
    + by apply cell_at_snoc_eq.
    + intros x Hx. by apply cell_at_snoc_ne.
Qed.

(** A row after [explode] comes from a row from before: the other cells
    are in place, and a document under [c] is one of the list it had. *)
Lemma explode_rows_cell (c : string) (df df' : DataFrame) (r' : list cell) :
  explode c df = Ok df' -> r' ∈ rows df' ->
  exists r, r ∈ rows df
    /\ (forall x, x <> c -> cell_at (columns df) r' x = cell_at (columns df) r x)
    /\ (forall s, cell_at (columns df) r' c = Doc s ->
          (exists l, cell_at (columns df) r c = Docs l /\ s ∈ l)
          \/ cell_at (columns df) r c = Doc s).
Proof.
  unfold explode. destruct (col_index c (columns df)) as [i|] eqn:Hi; [|done].
  intros [= <-]. cbn [rows columns].
  intros (rs & Hr' & (r & -> & Hr)%list_elem_of_fmap)%list_elem_of_join.
  exists r. split; [done|]. unfold explode_row in Hr'.
  destruct (r !! i) as [v|] eqn:Hri.
  - assert (i < length r) as Hlt by by eapply lookup_lt_Some.
    assert (cell_at (columns df) r c = v) as Hv by (unfold cell_at; by rewrite Hi, Hri).
    destruct v as [| | | |[|s0 l]]; cbn [fmap] in Hr';
      try (apply list_elem_of_singleton in Hr'; subst r'; split;
           [done | intros ? ?; by right]).
    + apply list_elem_of_singleton in Hr' as ->. split.
      * intros x Hx. by eapply cell_at_insert_ne.
      * intros s. by rewrite cell_at_insert_eq.
    + apply list_elem_of_fmap in Hr' as (s' & -> & Hs'). split.
      * intros x Hx. by eapply cell_at_insert_ne.
      * intros s. rewrite cell_at_insert_eq by done. intros [= <-]. left. eauto.
  - apply list_elem_of_singleton in Hr' as ->. split; [done|].
    intros s Hs. by right.
Qed.

(** Setting a column leaves the other columns as they were. *)
Lemma column_set_column_ne (c c' : string) (vals : list cell) (df : DataFrame) :
  wf df -> length vals = length (rows df) -> c' <> c ->
  column c' (set_column c vals df) = column c' df.
Proof.
  intros [Hnd Hrows] Hlen Hne. unfold column.
  assert (c' ∈ columns (set_column c vals df) <-> c' ∈ columns df) as Hiff
    by (rewrite set_column_elem_of_columns; tauto).
  repeat case_decide; try tauto. f_equal. unfold set_column.
  destruct (col_index c (columns df)) as [i|] eqn:Hi; cbn [rows columns];
    clear -Hrows Hi Hne Hlen.
  - revert vals Hlen. induction Hrows as [|r rs Hr _ IH]; intros [|v vals] Hlen; try done.
    simpl in *. rewrite IH by lia. f_equal. by eapply cell_at_insert_ne.
  - revert vals Hlen. induction Hrows as [|r rs Hr _ IH]; intros [|v vals] Hlen; try done.
    simpl in *. rewrite IH by lia. f_equal. by apply cell_at_snoc_ne.
Qed.

Lemma set_column_rows_length (c : string) (vals : list cell) (df : DataFrame) :
  length vals = length (rows df) -> length (rows (set_column c vals df)) = length (rows df).
Proof.
  intros Hlen. unfold set_column.
  destruct (col_index c (columns df)); cbn [rows]; rewrite length_zip_with; lia.
Qed.

End FrameRows.

(** ** [split_data], step by step *)

Section SplitSteps.
Import Frame Tasks.
Context (lib : thirdparty).

(** The frames between the steps of a run of [split_data] that returns. *)
Lemma split_data_steps md rst slack so code issues reg (out : DataFrame) :
  split_data lib md rst slack so code issues reg = Ok out ->
  exists (df df3 df5 : DataFrame) (chunks : list (list string)),
    let df1 := set_column "doc_chunks" (map Docs chunks) df in
    let df4 := set_column "content" (map (fun s => Str (rendered lib s)) (mjoin chunks)) df3 in
    concat_sources md rst slack so code issues reg = Ok df
    /\ "content" ∈ columns df
    /\ Forall2 (fun r ch => recursive_split_documents lib (cell_at (columns df) r "content") = Ok ch)
               (rows df) chunks
    /\ explode "doc_chunks"
         (filter_rows (fun r => 0 < chunk_count (cell_at (columns df1) r "doc_chunks")) df1) = Ok df3
    /\ map (fun r => cell_at (columns df3) r "doc_chunks") (rows df3) = map Doc (mjoin chunks)
    /\ wf df /\ wf df3 /\ wf df4
    /\ drop "doc_chunks" df4 = Ok df5
    /\ drop "header" df5 = Ok out.
Proof.
  unfold split_data. intros H. bind_inv H.
  rename a into df, a0 into docs, a1 into chunks, a2 into df3, a3 into exploded,
    a4 into texts, a5 into texts', a6 into df5.
  exists df, df3, df5, chunks. cbv zeta.
  pose proof (concat_sources_wf _ _ _ _ _ _ _ _ E) as Hwf.
  set (df1 := set_column "doc_chunks" (map Docs chunks) df) in *.
  assert (wf df1) as Hwf1 by by apply set_column_wf.
  assert ("content" ∈ columns df /\ docs = map (fun r => cell_at (columns df) r "content") (rows df))
    as [Hcontent ->].
  { unfold column in E0. case_decide; [|done]. by injection E0 as <-. }
  apply traverse_Forall2 in E1. pose proof (Forall2_length _ _ _ E1) as Hlen.
  rewrite length_map in Hlen.
  assert (Forall2 (fun r ch => cell_at (columns df1) r "doc_chunks" = Docs ch) (rows df1) chunks)
    as Hcells.
  { apply map_eq_Forall2.
    pose proof (column_set_column "doc_chunks" (map Docs chunks) df Hwf) as Hcol.
    rewrite length_map in Hcol. specialize (Hcol (eq_sym Hlen)). fold df1 in Hcol.
    unfold column in Hcol. case_decide; [|done]. by injection Hcol. }
  assert (wf df3) as Hwf3 by (eapply explode_wf; [done | by apply filter_rows_wf]).
  assert (map (fun r => cell_at (columns df3) r "doc_chunks") (rows df3) = map Doc (mjoin chunks)
          /\ exploded = map Doc (mjoin chunks)) as [Hex ->].
  { revert E2 E3. unfold explode. cbn [filter_rows columns rows].
    destruct (col_index "doc_chunks" (columns df1)) as [i|] eqn:Hi; [|done].
    intros [= <-]. unfold column. cbn [columns rows].
    pose proof (explode_filter_chunks _ _ _ _ _ Hi Hcells) as Hex.
    case_decide; [|done]. intros [= <-]. done. }
  rewrite traverse_chunk_text in E4. injection E4 as <-.
  rewrite traverse_strip_backslashes in E5. injection E5 as <-.
  split; [done|]. split; [done|]. split; [by apply Forall2_fmap_l in E1|].
  split; [done|]. split; [done|]. split; [done|]. split; [done|].
  split; [by apply set_column_wf|]. done.
Qed.

End SplitSteps.

Section SplitEdges.
Import Frame Tasks.
Context (lib : thirdparty).

(** X6.  [split_data] raises [ValueError] as soon as one of its seven
    lists of frames is empty, whatever well-formed frames the other lists
    hold: there is nothing to concatenate for that source. *)
Theorem split_data_empty_source md rst slack so code issues reg :
  Forall wf (md ++ rst ++ slack ++ so ++ code ++ issues ++ reg)%list ->
  md = [] \/ rst = [] \/ slack = [] \/ so = [] \/ code = [] \/ issues = [] \/ reg = [] ->
  split_data lib md rst slack so code issues reg = Raise ValueError.
Proof.
  intros _ H. unfold split_data, concat_sources.
  destruct md; [reflexivity|]. destruct rst; [reflexivity|]. destruct slack; [reflexivity|].
  destruct so; [reflexivity|]. destruct code; [reflexivity|]. destruct issues; [reflexivity|].
  destruct reg; [reflexivity|].
  repeat (destruct H as [H|H]; [discriminate|]). discriminate.
Qed.

(** X7.  [split_data] returns a frame only if one of the input frames has
    a [content] column and one of them has a [header] column: without a
    [header] anywhere the drop of line 619 fails. *)
Theorem split_data_needs_content_and_header md rst slack so code issues reg (out : DataFrame) :
  split_data lib md rst slack so code issues reg = Ok out ->
  Exists (fun f => "content" ∈ columns f) (md ++ rst ++ slack ++ so ++ code ++ issues ++ reg)%list
  /\ Exists (fun f => "header" ∈ columns f) (md ++ rst ++ slack ++ so ++ code ++ issues ++ reg)%list.
Proof.
  intros (df & df3 & df5 & chunks & Hdf & Hcontent & _ & Hexplode & _ & _ & _ & Hwf4
          & Hdrop & Hout)%split_data_steps. cbv zeta in *.
  split; apply Exists_exists.
  - by apply (concat_sources_columns _ _ _ _ _ _ _ _ _ Hdf).
  - apply (concat_sources_columns _ _ _ _ _ _ _ _ _ Hdf).
    apply drop_Ok_elem_of in Hout.
    apply (drop_elem_of_columns _ _ _ _ Hdrop) in Hout as [Hh _]; [|apply Hwf4].
    apply set_column_elem_of_columns in Hh as [Hh|?]; [|done].
    rewrite (explode_columns _ _ _ Hexplode) in Hh. cbn [filter_rows columns] in Hh.
    by apply set_column_elem_of_columns in Hh as [Hh|?].
Qed.

(** X8.  Every record that [split_data] returns from well-formed frames
    is a record of one of the input frames with a new content: the content
    is the rendering of one chunk that the splitter returned for the
    content of that input record, and every other field of the result is
    the field of the input record, unchanged. *)
Theorem split_data_provenance md rst slack so code issues reg (out : DataFrame) :
  Forall wf (md ++ rst ++ slack ++ so ++ code ++ issues ++ reg)%list ->
  split_data lib md rst slack so code issues reg = Ok out ->
  forall r_out, r_out ∈ rows out ->
    exists f r chunks chunk,
      f ∈ (md ++ rst ++ slack ++ so ++ code ++ issues ++ reg)%list /\ r ∈ rows f
      /\ recursive_split_documents lib (cell_at (columns f) r "content") = Ok chunks
      /\ chunk ∈ chunks
      /\ cell_at (columns out) r_out "content" = Str (rendered lib chunk)
      /\ forall c, c ∈ columns out -> c <> "content" ->
           cell_at (columns out) r_out c = cell_at (columns f) r c.
Proof.
  intros _ Hsplit r_out Hr_out.
  pose proof (split_data_inv _ _ _ _ _ _ _ _ _ Hsplit)
    as (df' & _ & _ & Hdf' & _ & _ & _ & Hcols & _).
  destruct (split_data_steps _ _ _ _ _ _ _ _ _ Hsplit)
    as (df & df3 & df5 & chunks & Hdf & Hcontent & Hchunks & Hexplode & Hex & Hwf & Hwf3 & Hwf4
        & Hdrop & Hout). cbv zeta in *.
  rewrite Hdf in Hdf'. injection Hdf' as <-.
  set (df1 := set_column "doc_chunks" (map Docs chunks) df) in *.
  set (texts := map (fun s => Str (rendered lib s)) (mjoin chunks)) in *.
  (* back through the two drops and the assignment of the content *)
  destruct (drop_rows_cell _ _ _ _ Hout Hr_out) as (r5 & Hr5 & Hc5).
  destruct (drop_rows_cell _ _ _ _ Hdrop Hr5) as (r4 & Hr4 & Hc4).
  destruct (set_column_rows_cell _ _ _ _ Hwf3 Hr4) as (i & r3 & text & Hr3 & Htext & Hct & Hc3).
  (* the chunk of that position *)
  assert (exists chunk, mjoin chunks !! i = Some chunk /\ text = Str (rendered lib chunk)
                        /\ cell_at (columns df3) r3 "doc_chunks" = Doc chunk)
    as (chunk & Hchunk & -> & Hdoc).
  { unfold texts in Htext. change (map ?g ?l) with (g <$> l) in Htext, Hex.
    rewrite list_lookup_fmap in Htext.
    destruct (mjoin chunks !! i) as [chunk|] eqn:Hi; [|done]. injection Htext as <-.
    exists chunk. split; [done|]. split; [done|].
    apply (f_equal (fun l => l !! i)) in Hex. rewrite !list_lookup_fmap, Hr3, Hi in Hex.
    by injection Hex. }
  (* back through [explode] and the filter *)
  pose proof (explode_columns _ _ _ Hexplode) as Hcols3. cbn [filter_rows columns] in Hcols3.
  rewrite Hcols3 in Hdoc, Hc3.
  destruct (explode_rows_cell _ _ _ _ Hexplode (list_elem_of_lookup_2 _ _ _ Hr3))
    as (r2 & Hr2 & Hc2 & Hdoc2). cbn [filter_rows columns rows] in Hr2, Hc2, Hdoc2.
  apply list_elem_of_filter in Hr2 as [_ Hr1].
  destruct (set_column_rows_cell _ _ _ _ Hwf Hr1) as (j & r & docs & Hr & Hdocs & Hcd & Hc1).
  fold df1 in Hcd, Hc1.
  change (map ?g ?l) with (g <$> l) in Hdocs. rewrite list_lookup_fmap in Hdocs.
  destruct (chunks !! j) as [ch|] eqn:Hj; [|done]. injection Hdocs as <-.
  assert (chunk ∈ ch) as Hin.
  { destruct (Hdoc2 _ Hdoc) as [(l & Hl & Hs)|Hd]; rewrite Hcd in *; [|done]. by injection Hl as ->. }
  pose proof (Forall2_lookup_lr _ _ _ _ _ _ Hchunks Hr Hj) as Hsplit_r.
  (* back through the concatenation *)
  destruct (concat_sources_cell _ _ _ _ _ _ _ _ _ Hdf (list_elem_of_lookup_2 _ _ _ Hr))
    as (f & r0 & Hf & Hr0 & Hc0).
  exists f, r0, ch, chunk. split; [done|]. split; [done|].
  split; [by rewrite <- Hc0|]. split; [done|]. split.
  - rewrite Hc5 by done. rewrite Hc4 by done. exact Hct.
  - intros c Hc Hne. apply Hcols in Hc as (_ & Hdc & Hh).
    rewrite Hc5 by done. rewrite Hc4 by done. rewrite Hc3 by done.
    rewrite Hc2 by done. rewrite Hc1 by done. apply Hc0.
Qed.

End SplitEdges.

Section SplitEdgeSamples.
Import Frame Tasks Sample.

Lemma split_data_empty_source_witness :
  Forall wf ([docs_frame] ++ [] ++ [docs_frame] ++ [issues_frame]
             ++ [docs_frame] ++ [issues_frame] ++ [docs_frame])%list
  /\ ([docs_frame] = [] \/ @nil DataFrame = [] \/ [docs_frame] = [] \/ [issues_frame] = []
   \/ [docs_frame] = [] \/ [issues_frame] = [] \/ [docs_frame] = [])
  /\ split_data library [docs_frame] [] [docs_frame] [issues_frame]
       [docs_frame] [issues_frame] [docs_frame] = Raise ValueError.
Proof.
  assert ([docs_frame] = [] \/ @nil DataFrame = [] \/ [docs_frame] = []
          \/ [issues_frame] = [] \/ [docs_frame] = [] \/ [issues_frame] = []
          \/ [docs_frame] = []) as H by (right; left; reflexivity).
  assert (Forall wf ([docs_frame] ++ [] ++ [docs_frame] ++ [issues_frame]
                     ++ [docs_frame] ++ [issues_frame] ++ [docs_frame])%list) as Hwf
    by (apply (bool_decide_unpack _); vm_compute; reflexivity).
  split; [exact Hwf|]. split; [exact H|].
  exact (split_data_empty_source library [docs_frame] [] [docs_frame] [issues_frame]
           [docs_frame] [issues_frame] [docs_frame] Hwf H).
Defined.

Lemma split_data_needs_content_and_header_witness :
  exists out,
    split_data library [docs_frame] [docs_frame] [docs_frame] [issues_frame]
      [docs_frame] [docs_frame] [docs_frame] = Ok out
    /\ Exists (fun f => "content" ∈ columns f)
         ([docs_frame] ++ [docs_frame] ++ [docs_frame] ++ [issues_frame]
          ++ [docs_frame] ++ [docs_frame] ++ [docs_frame])%list
    /\ Exists (fun f => "header" ∈ columns f)
         ([docs_frame] ++ [docs_frame] ++ [docs_frame] ++ [issues_frame]
          ++ [docs_frame] ++ [docs_frame] ++ [docs_frame])%list.
Proof.
  eexists. split; [vm_compute; reflexivity|].
  eapply (split_data_needs_content_and_header library [docs_frame] [docs_frame] [docs_frame]
            [issues_frame] [docs_frame] [docs_frame] [docs_frame]).
  vm_compute; reflexivity.
Defined.

Lemma split_data_provenance_witness :
  Forall wf ([docs_frame] ++ [issues_frame] ++ [issues_frame] ++ [issues_frame]
             ++ [issues_frame] ++ [issues_frame] ++ [issues_frame])%list
  /\ exists out,
    split_data library [docs_frame] [issues_frame] [issues_frame] [issues_frame]
      [issues_frame] [issues_frame] [issues_frame] = Ok out
    /\ length (rows out) = 7
    /\ forall r_out, r_out ∈ rows out ->
         exists f r chunks chunk,
           f ∈ ([docs_frame] ++ [issues_frame] ++ [issues_frame] ++ [issues_frame]
                ++ [issues_frame] ++ [issues_frame] ++ [issues_frame])%list
           /\ r ∈ rows f
           /\ recursive_split_documents library (cell_at (columns f) r "content") = Ok chunks
           /\ chunk ∈ chunks
           /\ cell_at (columns out) r_out "content" = Str (rendered library chunk)
           /\ forall c, c ∈ columns out -> c <> "content" ->
                cell_at (columns out) r_out c = cell_at (columns f) r c.
Proof.
  assert (Forall wf ([docs_frame] ++ [issues_frame] ++ [issues_frame] ++ [issues_frame]
                     ++ [issues_frame] ++ [issues_frame] ++ [issues_frame])%list) as Hwf
    by (apply (bool_decide_unpack _); vm_compute; reflexivity).
  split; [exact Hwf|].
  eexists. split; [vm_compute; reflexivity|]. split; [reflexivity|].
  apply (split_data_provenance library [docs_frame] [issues_frame] [issues_frame]
           [issues_frame] [issues_frame] [issues_frame] [issues_frame]); [exact Hwf|].
  vm_compute; reflexivity.
Defined.

Lemma split_data_returns_on_records_witness :
  Forall record_shape ([docs_frame] ++ [docs_frame] ++ [docs_frame] ++ [issues_frame]
                       ++ [docs_frame] ++ [issues_frame] ++ [docs_frame])%list
  /\ Exists (fun f => "header" ∈ columns f)
       ([docs_frame] ++ [docs_frame] ++ [docs_frame] ++ [issues_frame]
        ++ [docs_frame] ++ [issues_frame] ++ [docs_frame])%list
  /\ exists out,
       split_data library [docs_frame] [docs_frame] [docs_frame] [issues_frame]
         [docs_frame] [issues_frame] [docs_frame] = Ok out.
Proof.
  assert (Forall record_shape ([docs_frame] ++ [docs_frame] ++ [docs_frame] ++ [issues_frame]
                               ++ [docs_frame] ++ [issues_frame] ++ [docs_frame])%list) as Hshape
    by (apply (bool_decide_unpack _); vm_compute; reflexivity).
  assert (Exists (fun f => "header" ∈ columns f)
            ([docs_frame] ++ [docs_frame] ++ [docs_frame] ++ [issues_frame]
             ++ [docs_frame] ++ [issues_frame] ++ [docs_frame])%list) as Hheader
    by (apply (bool_decide_unpack _); vm_compute; reflexivity).
  split; [exact Hshape|]. split; [exact Hheader|].
  apply (split_data_returns_on_records library); try done.
  intros f r Hf Hr. simpl in Hf.
  repeat (apply elem_of_cons in Hf as [->|Hf]); try (by apply elem_of_nil in Hf);
    unfold docs_frame, issues_frame in Hr; cbn [rows] in Hr;
    repeat (apply elem_of_cons in Hr as [->|Hr]); try (by apply elem_of_nil in Hr);
    eexists; vm_compute; reflexivity.
Defined.

End SplitEdgeSamples.

(** ** [import_data] and the extract tasks: what they keep, how they fail *)

Section ExtractEdges.
Import Frame Tasks.
Context (lib : thirdparty).

Lemma row_uuids_length (df : DataFrame) : length (row_uuids lib df) = length (rows df).
Proof. unfold row_uuids. apply length_imap. Qed.

(** X10.  [import_data] hands over the frame it was given with the [uuid]
    column set and nothing else touched: no record is dropped or added,
    and every other column reads as before. *)
Theorem import_data_keeps_records (df : DataFrame) (cls : string) :
  wf df ->
  exists a,
    import_data lib df cls = Ok a
    /\ class_name a = cls
    /\ length (rows (data a)) = length (rows df)
    /\ column (uuid_column a) (data a)
       = Ok (map (fun r => Str (generate_uuid5 lib (IdDict (to_dict (columns df) r)))) (rows df))
    /\ forall c, c <> uuid_column a -> column c (data a) = column c df.
Proof.
  intros Hwf. unfold import_data. rewrite concat_single by done. cbn [mbind result_bind].
  eexists. split; [reflexivity|]. cbn [class_name data uuid_column]. split; [done|].
  split; [by rewrite set_column_rows_length by by rewrite length_map|].
  split; [by rewrite column_set_column by (done || by rewrite length_map)|].
  intros c Hc. by rewrite column_set_column_ne by (done || by rewrite length_map).
Qed.

(** X11.  [extract_stack_overflow] and [extract_github_issues] return their
    snapshot with the [sha] column set to the uuid of each row (an existing
    [sha] is overwritten) and every other column as it is on the disk. *)
Theorem extract_sets_sha (fs : filesystem) (s : source) (tag cutoff path : string)
    (answers issues : DataFrame) :
  fs stackoverflow_path = Some answers -> wf answers ->
  snapshot_path s = Ok path -> fs path = Some issues -> wf issues ->
  (exists out, extract_stack_overflow lib fs tag cutoff = Ok out
     /\ column "sha" out = Ok (row_uuids lib answers)
     /\ forall c, c <> "sha" -> column c out = column c answers)
  /\ (exists out, extract_github_issues lib fs s = Ok out
        /\ column "sha" out = Ok (row_uuids lib issues)
        /\ forall c, c <> "sha" -> column c out = column c issues).
Proof.
  intros Hso Hwf1 Hpath His Hwf2.
  unfold extract_stack_overflow, extract_github_issues, read_parquet.
  rewrite Hso, Hpath. cbn [mbind result_bind from_option]. rewrite His.
  cbn [mbind result_bind from_option].
  split; eexists; (split; [reflexivity|]); split;
    try (apply column_set_column; [done | apply row_uuids_length]);
    intros c Hc; apply column_set_column_ne; (done || apply row_uuids_length).
Qed.

(** X12.  The four extract tasks that build their path from the source
    raise [KeyError] when the source has no [repo_base] or no [doc_dir],
    whatever is on the disk. *)
Theorem extract_github_missing_key (fs : filesystem) (s : source) :
  s !! "repo_base" = None \/ s !! "doc_dir" = None ->
  extract_github_markdown fs s = Raise KeyError
  /\ extract_github_rst fs s = Raise KeyError
  /\ extract_github_python fs s = Raise KeyError
  /\ extract_github_issues lib fs s = Raise KeyError.
Proof.
  intros H.
  assert (snapshot_path s = Raise KeyError) as Hpath.
  { unfold snapshot_path, lookup_source. destruct H as [-> | H]; [done|].
    destruct (s !! "repo_base"); [|done]. simpl. by rewrite H. }
  unfold extract_github_markdown, extract_github_rst, extract_github_python,
    extract_github_issues. by rewrite Hpath.
Qed.

(** [df[[c1, ..., cn]]] in one piece: the selected cells when every label
    is there, [KeyError] when one is not. *)
Lemma traverse_col_index (cs cols : list string) :
  traverse (fun c => from_option KeyError (col_index c cols)) cs
  = if decide (cs ⊆ cols)
    then Ok (map (fun c => default 0 (col_index c cols)) cs)
    else Raise KeyError.
Proof.
  induction cs as [|c cs IH].
  - cbn [traverse map]. destruct (decide ([] ⊆ cols)) as [|Hsub]; [done|].
    destruct Hsub. intros x Hx. by apply elem_of_nil in Hx.
  - cbn [traverse map]. rewrite IH. clear IH.
    destruct (col_index c cols) as [i|] eqn:Hi; cbn [from_option mbind result_bind default].
    + apply col_index_Some_elem_of in Hi.
      destruct (decide (cs ⊆ cols)) as [Hsub|Hsub]; cbn [mbind result_bind].
      * rewrite decide_True; [done|]. intros x [->|Hx]%elem_of_cons; auto.
      * rewrite decide_False; [done|]. intros Hsub'. apply Hsub.
        intros x Hx. apply Hsub'. by right.
    + apply col_index_None in Hi. rewrite decide_False; [done|].
      intros Hsub. apply Hi, Hsub. by left.
Qed.

Lemma select_spec (cs : list string) (df : DataFrame) :
  select cs df
  = if decide (cs ⊆ columns df)
    then Ok {| columns := cs;
               rows := map (fun r => map (cell_at (columns df) r) cs) (rows df) |}
    else Raise KeyError.
Proof.
  unfold select. rewrite traverse_col_index. case_decide as Hsub; [|done].
  cbn [mbind result_bind]. do 2 f_equal. apply map_ext. intros r.
  rewrite map_map. apply map_ext_in. intros c Hc%list_elem_of_In.
  apply Hsub in Hc. apply col_index_elem_of in Hc as [i Hi].
  unfold cell_at. by rewrite Hi.
Qed.

End ExtractEdges.

Section ExtractEdgeSamples.
Import Frame Tasks Sample.

Lemma import_data_keeps_records_witness :
  wf docs_frame
  /\ exists a,
       import_data library docs_frame "Docs" = Ok a
       /\ class_name a = "Docs"
       /\ length (rows (data a)) = length (rows docs_frame)
       /\ column (uuid_column a) (data a)
          = Ok (map (fun r => Str (generate_uuid5 library
                                     (IdDict (to_dict (columns docs_frame) r))))
                    (rows docs_frame))
       /\ forall c, c <> uuid_column a -> column c (data a) = column c docs_frame.
Proof.
  assert (wf docs_frame) as H by (apply (bool_decide_unpack _); vm_compute; reflexivity).
  split; [exact H|]. exact (import_data_keeps_records library docs_frame "Docs" H).
Defined.

Lemma extract_sets_sha_witness :
  disk stackoverflow_path = Some stackoverflow_frame /\ wf stackoverflow_frame
  /\ snapshot_path (default ∅ (head issues_docs_sources))
     = Ok "include/data/apache/airflow/issues.parquet"
  /\ disk "include/data/apache/airflow/issues.parquet" = Some issues_frame /\ wf issues_frame
  /\ (exists out, extract_stack_overflow library disk "airflow" stackoverflow_cutoff_date = Ok out
        /\ column "sha" out = Ok (row_uuids library stackoverflow_frame)
        /\ forall c, c <> "sha" -> column c out = column c stackoverflow_frame)
  /\ (exists out, extract_github_issues library disk (default ∅ (head issues_docs_sources)) = Ok out
        /\ column "sha" out = Ok (row_uuids library issues_frame)
        /\ forall c, c <> "sha" -> column c out = column c issues_frame).
Proof.
  assert (wf stackoverflow_frame) as H1 by (apply (bool_decide_unpack _); vm_compute; reflexivity).
  assert (wf issues_frame) as H2 by (apply (bool_decide_unpack _); vm_compute; reflexivity).
  split; [reflexivity|]. split; [exact H1|]. split; [vm_compute; reflexivity|].
  split; [reflexivity|]. split; [exact H2|].
  apply (extract_sets_sha library disk (default ∅ (head issues_docs_sources)) "airflow"
           stackoverflow_cutoff_date "include/data/apache/airflow/issues.parquet"
           stackoverflow_frame issues_frame);
    first [exact H1 | exact H2 | vm_compute; reflexivity].
Defined.

Lemma extract_github_missing_key_witness :
  (troubleshooting !! "repo_base" = None \/ troubleshooting !! "doc_dir" = None)
  /\ extract_github_markdown disk troubleshooting = Raise KeyError
  /\ extract_github_rst disk troubleshooting = Raise KeyError
  /\ extract_github_python disk troubleshooting = Raise KeyError
  /\ extract_github_issues library disk troubleshooting = Raise KeyError.
Proof.
  assert (troubleshooting !! "repo_base" = None \/ troubleshooting !! "doc_dir" = None) as H
    by (left; vm_compute; reflexivity).
  split; [exact H|]. exact (extract_github_missing_key library disk troubleshooting H).
Defined.

End ExtractEdgeSamples.

(** ** [extract_slack]: archives it refuses, rows it ignores *)

Section SlackEdges.
Import Frame Tasks.
Context (lib : thirdparty).

Lemma keep_first_snoc `{EqDecision A} (l : list A) (x : A) :
  keep_first (l ++ [x]) = if decide (x ∈ l) then keep_first l else (keep_first l ++ [x])%list.
Proof.
  induction l as [|y l IH]; [done|]. cbn [app keep_first]. rewrite IH.
  destruct (decide (x ∈ l)) as [Hx|Hx].
  - rewrite decide_True by (by right). done.
  - rewrite filter_app. destruct (decide (x = y)) as [->|Hne].
    + rewrite decide_True by (by left).
      rewrite filter_cons_False by (intros Hy; by apply Hy). by rewrite app_nil_r.
    + rewrite decide_False by (intros [?|?]%elem_of_cons; done).
      by rewrite filter_cons_True by done.
Qed.

(** X13.  [extract_slack] raises [KeyError] on an archive that lacks one
    of the six columns it selects. *)
Theorem extract_slack_missing_column (fs : filesystem) (s : source) (snap : DataFrame)
    (c : string) :
  fs slack_path = Some snap ->
  c ∈ ["user"; "text"; "ts"; "thread_ts"; "client_msg_id"; "type"] ->
  c ∉ columns snap ->
  extract_slack lib fs s = Raise KeyError.
Proof.
  intros Hsnap Hc Hmissing. unfold extract_slack, read_parquet. rewrite Hsnap.
  cbn [from_option mbind result_bind]. rewrite select_spec.
  rewrite decide_False; [done|]. intros Hsub. by apply Hmissing, Hsub.
Qed.

(** X14.  [extract_slack] returns nothing when a message of the archive
    has no [ts]: the task fails. *)
Theorem extract_slack_missing_ts (fs : filesystem) (s : source) (snap : DataFrame)
    (r : list cell) :
  fs slack_path = Some snap ->
  r ∈ rows snap ->
  cell_at (columns snap) r "ts" = NaN ->
  forall out, extract_slack lib fs s <> Ok out.
Proof.
  intros Hsnap Hr Hts out. unfold extract_slack, read_parquet. rewrite Hsnap.
  cbn [from_option mbind result_bind]. rewrite select_spec.
  case_decide; [|done]. cbn [mbind result_bind rows]. intros Hex. bind_inv Hex.
  apply slack_messages_rows in E.
  set (g := fun r => map (cell_at (columns snap) r)
                         ["user"; "text"; "ts"; "thread_ts"; "client_msg_id"; "type"]) in *.
  assert (g r ∈ keep_first (map g (rows snap))) as Hin.
  { apply keep_first_elem_of. change (map g ?l) with (g <$> l). apply list_elem_of_fmap. eauto. }
  apply list_elem_of_lookup_1 in Hin as [i Hi].
  destruct (Forall2_lookup_l _ _ _ _ _ E Hi) as (m & _ & Hm & _).
  unfold g in Hm. cbn [map lookup list_lookup default] in Hm. rewrite Hts in Hm. discriminate.
Qed.

(** X15.  A row whose six selected fields repeat those of a row already in
    the archive changes nothing: [extract_slack] returns the same result
    with and without it. *)
Theorem extract_slack_ignores_duplicates (fs fs' : filesystem) (s : source)
    (snap snap' : DataFrame) (r0 r : list cell) :
  fs slack_path = Some snap -> fs' slack_path = Some snap' ->
  columns snap' = columns snap -> rows snap' = (rows snap ++ [r])%list ->
  r0 ∈ rows snap ->
  map (cell_at (columns snap) r)
      ["user"; "text"; "ts"; "thread_ts"; "client_msg_id"; "type"]
  = map (cell_at (columns snap) r0)
        ["user"; "text"; "ts"; "thread_ts"; "client_msg_id"; "type"] ->
  extract_slack lib fs' s = extract_slack lib fs s.
Proof.
  intros Hsnap Hsnap' Hcols Hrows Hr0 Hsame. unfold extract_slack, read_parquet.
  rewrite Hsnap, Hsnap'. cbn [from_option mbind result_bind]. rewrite !select_spec, Hcols.
  case_decide; [|done]. cbn [mbind result_bind rows].
  set (g := fun r => map (cell_at (columns snap) r)
                         ["user"; "text"; "ts"; "thread_ts"; "client_msg_id"; "type"]) in *.
  rewrite Hrows, map_app. change (map g [r]) with [g r].
  rewrite keep_first_snoc, decide_True; [done|].
  change (g r = g r0) in Hsame. rewrite Hsame. change (map g ?l) with (g <$> l).
  apply list_elem_of_fmap. eauto.
Qed.




End SlackEdges.

Section SlackRecords.
Import Frame Tasks.
Context (lib : thirdparty).

(** X18.  Every record that [extract_slack] returns is made from the four
    keys [team_name], [channel_name], [team_id] and [channel_id] of the
    source: its [docSource] is the channel name, its [sha] is the uuid of
    its own content, and its [docLink] is the client address of the
    channel followed by [p] and a stamp in which no dot is left. *)
Theorem extract_slack_record_fields (fs : filesystem) (s : source) (out : DataFrame) :
  extract_slack lib fs s = Ok out ->
  forall r, r ∈ rows out ->
    exists team channel team_id channel_id body stamp,
      s !! "team_name" = Some team /\ s !! "channel_name" = Some channel
      /\ s !! "team_id" = Some team_id /\ s !! "channel_id" = Some channel_id
      /\ r = [Str channel; Str (generate_uuid5 lib (IdStr body)); Str body;
              Str ("https://app.slack.com/client/" ++ team_id ++ "/" ++ channel_id
                   ++ "/p" ++ stamp)]
      /\ occurs "." stamp = false.
Proof.
  unfold extract_slack. intros H. bind_inv H. injection H as <-. cbn [rows].
  intros r [i Hi]%list_elem_of_lookup_1.
  apply traverse_Forall2 in E2.
  destruct (Forall2_lookup_r _ _ _ _ _ E2 Hi) as (g & _ & Hg).
  unfold thread_record, lookup_source in Hg. bind_inv Hg. injection Hg as <-.
  apply from_option_Ok in E4, E5, E6, E7.
  do 6 eexists. repeat (split; [eassumption|]). split; [reflexivity|].
  by apply replace_char_occurs_old.
Qed.

End SlackRecords.

Section SlackRecordSamples.
Import Frame Tasks Sample.

Lemma extract_slack_record_fields_witness :
  exists out r,
    extract_slack library slack_disk troubleshooting = Ok out
    /\ r ∈ rows out
    /\ exists team channel team_id channel_id body stamp,
         troubleshooting !! "team_name" = Some team
         /\ troubleshooting !! "channel_name" = Some channel
         /\ troubleshooting !! "team_id" = Some team_id
         /\ troubleshooting !! "channel_id" = Some channel_id
         /\ r = [Str channel; Str (generate_uuid5 library (IdStr body)); Str body;
                 Str ("https://app.slack.com/client/" ++ team_id ++ "/" ++ channel_id
                      ++ "/p" ++ stamp)]
         /\ occurs "." stamp = false.
Proof.
  assert (exists out r, extract_slack library slack_disk troubleshooting = Ok out
                        /\ r ∈ rows out) as (out & r & Hout & Hr).
  { eexists _, _. split; [vm_compute; reflexivity|]. left. }
  exists out, r. split; [exact Hout|]. split; [exact Hr|].
  exact (extract_slack_record_fields library slack_disk troubleshooting out Hout r Hr).
Defined.

End SlackRecordSamples.

Section SlackEdgeSamples.
Import Frame Tasks Sample.

Lemma extract_slack_missing_column_witness :
  slack_disk_flat slack_path
    = Some {| columns := ["client_msg_id"; "type"; "text"; "user"; "ts"];
              rows := [ [Str "m1"; Str "message"; Str "hello"; Str "U1"; Num 30] ] |}
  /\ ("thread_ts" ∈ ["user"; "text"; "ts"; "thread_ts"; "client_msg_id"; "type"])
  /\ ("thread_ts" ∉ ["client_msg_id"; "type"; "text"; "user"; "ts"])
  /\ extract_slack library slack_disk_flat troubleshooting = Raise KeyError.
Proof.
  assert ("thread_ts" ∈ ["user"; "text"; "ts"; "thread_ts"; "client_msg_id"; "type"]) as H1
    by (apply (bool_decide_unpack _); vm_compute; reflexivity).
  assert ("thread_ts" ∉ ["client_msg_id"; "type"; "text"; "user"; "ts"]) as H2
    by (apply (bool_decide_unpack _); vm_compute; reflexivity).
  split; [reflexivity|]. split; [exact H1|]. split; [exact H2|].
  exact (extract_slack_missing_column library slack_disk_flat troubleshooting _ "thread_ts"
           eq_refl H1 H2).
Defined.

Lemma extract_slack_missing_ts_witness :
  slack_disk_undated slack_path = Some slack_snapshot_undated
  /\ [Str "m5"; Str "message"; Str "joined"; Str "U4"; NaN; NaN] ∈ rows slack_snapshot_undated
  /\ cell_at (columns slack_snapshot_undated)
       [Str "m5"; Str "message"; Str "joined"; Str "U4"; NaN; NaN] "ts" = NaN
  /\ forall out, extract_slack library slack_disk_undated troubleshooting <> Ok out.
Proof.
  assert ([Str "m5"; Str "message"; Str "joined"; Str "U4"; NaN; NaN]
          ∈ rows slack_snapshot_undated) as H1
    by (apply (bool_decide_unpack _); vm_compute; reflexivity).
  split; [reflexivity|]. split; [exact H1|]. split; [reflexivity|].
  exact (extract_slack_missing_ts library slack_disk_undated troubleshooting
           slack_snapshot_undated _ eq_refl H1 eq_refl).
Defined.

Lemma extract_slack_ignores_duplicates_witness :
  slack_disk slack_path = Some slack_snapshot
  /\ slack_disk_again slack_path = Some slack_snapshot_again
  /\ rows slack_snapshot_again
     = (rows slack_snapshot
        ++ [[Str "m2"; Str "message"; Str "reply"; Str "U2"; Num 40; Num 30]])%list
  /\ [Str "m2"; Str "message"; Str "reply"; Str "U2"; Num 40; Num 30] ∈ rows slack_snapshot
  /\ extract_slack library slack_disk_again troubleshooting
     = extract_slack library slack_disk troubleshooting.
Proof.
  assert ([Str "m2"; Str "message"; Str "reply"; Str "U2"; Num 40; Num 30]
          ∈ rows slack_snapshot) as H1
    by (apply (bool_decide_unpack _); vm_compute; reflexivity).
  split; [reflexivity|]. split; [reflexivity|]. split; [reflexivity|]. split; [exact H1|].
  exact (extract_slack_ignores_duplicates library slack_disk slack_disk_again troubleshooting
           slack_snapshot slack_snapshot_again _ _ eq_refl eq_refl eq_refl eq_refl H1 eq_refl).
Defined.


End SlackEdgeSamples.

(** ** The data path of the DAG *)

Section DataPath.
Import Frame Tasks.
Context (lib : thirdparty).

(** The snapshots of the four path-built sources are not the Slack
    archive. *)
Lemma dag_snapshot_paths (s : source) (path : string) :
  s ∈ (markdown_docs_sources ++ rst_docs_sources ++ code_samples_sources
       ++ issues_docs_sources)%list ->
  snapshot_path s = Ok path -> path <> slack_path.
Proof.
  unfold markdown_docs_sources, rst_docs_sources, code_samples_sources, issues_docs_sources.
  cbn [app]. intros Hs Hpath.
  repeat (apply elem_of_cons in Hs as [->|Hs]); try (by apply elem_of_nil in Hs);
    vm_compute in Hpath; injection Hpath as <-; discriminate.
Qed.

Lemma extract_slack_columns (fs : filesystem) (s : source) (out : DataFrame) :
  extract_slack lib fs s = Ok out -> columns out = ["docSource"; "sha"; "content"; "docLink"].
Proof. unfold extract_slack. intros H. bind_inv H. by injection H as <-. Qed.

Lemma traverse_elem_of {A B} (f : A -> result B) (l : list A) (l' : list B) (y : B) :
  traverse f l = Ok l' -> y ∈ l' -> exists x, x ∈ l /\ f x = Ok y.
Proof.
  intros HF%traverse_Forall2 [i Hi]%list_elem_of_lookup_1.
  destruct (Forall2_lookup_r _ _ _ _ _ HF Hi) as (x & Hx & Hfx).
  exists x. split; [by eapply list_elem_of_lookup_2 | done].
Qed.

(** X17.  When every snapshot on the disk other than the Slack archive has
    no column beyond [docSource], [sha], [docLink], [content] and
    [header], what the DAG hands to the import has exactly the columns
    [docSource], [sha], [docLink], [content] and [uuid], five cells in
    every record, for the class [Docs]. *)
Theorem unimported_md_schema (fs : filesystem) (a : import_args) :
  (forall path snap, fs path = Some snap -> path <> slack_path ->
     columns snap ⊆ "header" :: record_fields) ->
  unimported_md lib fs = Ok a ->
  columns (data a) ≡ₚ ["docSource"; "sha"; "docLink"; "content"; "uuid"]
  /\ Forall (fun r => length r = 5) (rows (data a))
  /\ class_name a = "Docs".
Proof.
  intros Hdisk H. unfold unimported_md in H. bind_inv H.
  rename a0 into md_docs, a1 into rst_docs, a2 into issues_md, a3 into code_samples,
    a4 into stackoverflow_md, a5 into slack_md, a6 into registry_md, a7 into split.
  (* the columns of the extracted frames *)
  assert (forall f, f ∈ (md_docs ++ rst_docs ++ slack_md ++ stackoverflow_md ++ code_samples
                         ++ issues_md ++ registry_md)%list ->
                    columns f ⊆ "header" :: record_fields) as Hcols.
  { intros f Hf. repeat (apply elem_of_app in Hf as [Hf|Hf]).
    - destruct (traverse_elem_of _ _ _ _ E Hf) as (s & Hs & Hext).
      unfold extract_github_markdown in Hext. bind_inv Hext. apply read_parquet_Ok in Hext.
      eapply Hdisk; [done|]. eapply dag_snapshot_paths; [|done].
      repeat (apply elem_of_app; first [by left | right]).
    - destruct (traverse_elem_of _ _ _ _ E0 Hf) as (s & Hs & Hext).
      unfold extract_github_rst in Hext. bind_inv Hext. apply read_parquet_Ok in Hext.
      eapply Hdisk; [done|]. eapply dag_snapshot_paths; [|done].
      repeat (apply elem_of_app; first [by left | right]).
    - destruct (traverse_elem_of _ _ _ _ E4 Hf) as (s & Hs & Hext).
      rewrite (extract_slack_columns _ _ _ Hext). by apply (bool_decide_unpack _).
    - destruct (traverse_elem_of _ _ _ _ E3 Hf) as (s & Hs & Hext).
      unfold extract_stack_overflow in Hext. bind_inv Hext. apply read_parquet_Ok in E7.
      injection Hext as <-. intros x [Hx| ->]%set_column_elem_of_columns.
      + by eapply (Hdisk _ _ E7).
      + by apply (bool_decide_unpack _).
    - destruct (traverse_elem_of _ _ _ _ E2 Hf) as (s & Hs & Hext).
      unfold extract_github_python in Hext. bind_inv Hext. apply read_parquet_Ok in Hext.
      eapply Hdisk; [done|]. eapply dag_snapshot_paths; [|done].
      repeat (apply elem_of_app; first [by left | right]).
    - destruct (traverse_elem_of _ _ _ _ E1 Hf) as (s & Hs & Hext).
      unfold extract_github_issues in Hext. bind_inv Hext. apply read_parquet_Ok in E8.
      injection Hext as <-. intros x [Hx| ->]%set_column_elem_of_columns.
      + eapply (Hdisk _ _ E8); [|done]. eapply dag_snapshot_paths; [|done].
        repeat (apply elem_of_app; right). done.
      + by apply (bool_decide_unpack _).
    - destruct (traverse_elem_of _ _ _ _ E5 Hf) as (s & Hs & Hext).
      unfold extract_registry in Hext. apply read_parquet_Ok in Hext.
      by eapply (Hdisk _ _ Hext). }
  (* the Slack frame brings the four fields *)
  assert (exists f, f ∈ slack_md /\ columns f = ["docSource"; "sha"; "content"; "docLink"])
    as (fslack & Hfslack & Hslack).
  { apply traverse_Forall2 in E4. unfold slack_channel_sources in E4.
    inversion E4 as [|s f ? ? Hext _]; subst. exists f. split; [by left|].
    by eapply extract_slack_columns. }
  (* the columns after [split_data] *)
  destruct (split_data_inv _ _ _ _ _ _ _ _ _ E6)
    as (df & _ & _ & Hdf & _ & _ & Hwf & Hsplit & _).
  assert (forall x, x ∈ columns split <-> x ∈ record_fields) as Hiff.
  { intros x. rewrite Hsplit, (concat_sources_columns _ _ _ _ _ _ _ _ x Hdf). split.
    - intros [(f & Hf & Hx) [Hdc Hh]]. apply Hcols in Hf. apply Hf in Hx.
      by apply elem_of_cons in Hx as [->|Hx].
    - intros Hx. split.
      + exists fslack. split; [repeat (apply elem_of_app; first [by left | right])|].
        rewrite Hslack. unfold record_fields in Hx.
        repeat (apply elem_of_cons in Hx as [->|Hx]); try (by apply elem_of_nil in Hx);
          by apply (bool_decide_unpack _).
      + unfold record_fields in Hx.
        repeat (apply elem_of_cons in Hx as [->|Hx]); try done. by apply elem_of_nil in Hx. }
  assert (columns split ≡ₚ record_fields) as Hperm.
  { apply NoDup_Permutation; [apply Hwf | by apply (bool_decide_unpack _) | done]. }
  (* the import adds [uuid] *)
  unfold import_data in H. rewrite concat_single in H by done. cbn [mbind result_bind] in H.
  injection H as <-. cbn [data class_name].
  set (uuids := map _ (rows split)).
  assert ("uuid" ∉ columns split) as Huuid by (rewrite Hiff; by apply (bool_decide_unpack _)).
  assert (columns (set_column "uuid" uuids split) = (columns split ++ ["uuid"])%list) as Hc.
  { unfold set_column. apply col_index_None in Huuid. by rewrite Huuid. }
  split; [|split; [|done]].
  - rewrite Hc, Hperm. unfold record_fields. simpl. done.
  - destruct (set_column_wf "uuid" uuids split Hwf) as [_ Hrows].
    eapply Forall_impl; [exact Hrows|]. simpl. intros r ->.
    rewrite Hc, length_app, Hperm. reflexivity.
Qed.

End DataPath.

Section DataPathSamples.
Import Frame Tasks Sample.

Lemma unimported_md_schema_witness :
  exists a,
    (forall path snap, disk path = Some snap -> path <> slack_path ->
       columns snap ⊆ "header" :: record_fields)
    /\ unimported_md library disk = Ok a
    /\ length (rows (data a)) = 9
    /\ columns (data a) ≡ₚ ["docSource"; "sha"; "docLink"; "content"; "uuid"]
    /\ Forall (fun r => length r = 5) (rows (data a))
    /\ class_name a = "Docs".
Proof.
  assert (forall path snap, disk path = Some snap -> path <> slack_path ->
            columns snap ⊆ "header" :: record_fields) as Hdisk.
  { intros path snap Hsnap Hne. unfold disk in Hsnap.
    repeat (case_decide; [try (injection Hsnap as <-; by apply (bool_decide_unpack _)); done|]).
    discriminate. }
  eexists. split; [exact Hdisk|]. split; [vm_compute; reflexivity|]. split; [reflexivity|].
  apply (unimported_md_schema library disk); [exact Hdisk|]. vm_compute; reflexivity.
Defined.

End DataPathSamples.
